(** * LangChainTools: the retrying HTTP client and the weather/time tools

    A shallow embedding of [src/http_client.py] and of the four tools of
    [src/agent_weather_time.py], together with the part of the Python
    runtime they rely on (text, JSON-like values, binary64 numbers and
    their rendering, exceptions).  Effects -- outbound requests, sleeping,
    calls into the weather provider, reading the host clock -- are recorded
    in a trace carried by a state monad; Python exceptions live in an
    error monad stacked on top of it, so that effects performed before a
    [raise] are kept when an [except] clause takes over. *)

From Stdlib Require Import ZArith NArith PArith List String Ascii Bool Lia.
From Stdlib Require Import DecimalString SpecFloat.
From ExtLib Require Import Structures.Monad Structures.MonadState Structures.MonadExc.
From ExtLib Require Import Data.Monads.StateMonad Data.Monads.EitherMonad.
Import ListNotations.
Import MonadNotation.

Local Open Scope Z_scope.
Local Open Scope monad_scope.
Set Warnings "-register-all".

(** ** Text *)

Module PyStr.

(** A Python [str] is a sequence of Unicode code points. *)
Definition pystr := list N.

(** Source literals are written as UTF-8 byte strings and decoded here. *)
Fixpoint utf8_decode (bs : list N) : pystr :=
  match bs with
  | [] => []
  | b :: r =>
      if (b <? 128)%N then b :: utf8_decode r
      else if (b <? 224)%N then
        match r with
        | c1 :: r1 => ((b mod 32) * 64 + c1 mod 64)%N :: utf8_decode r1
        | _ => []
        end
      else if (b <? 240)%N then
        match r with
        | c1 :: c2 :: r2 =>
            ((b mod 16) * 4096 + (c1 mod 64) * 64 + c2 mod 64)%N :: utf8_decode r2
        | _ => []
        end
      else
        match r with
        | c1 :: c2 :: c3 :: r3 =>
            ((b mod 8) * 262144 + (c1 mod 64) * 4096 + (c2 mod 64) * 64 + c3 mod 64)%N
              :: utf8_decode r3
        | _ => []
        end
  end.

Definition u (s : string) : pystr :=
  utf8_decode (map N_of_ascii (list_ascii_of_string s)).

(** [str.isspace] on one code point: the characters [str.strip()] removes
    when called without an argument. *)
Definition is_space (c : N) : bool :=
  ((9 <=? c) && (c <=? 13) || (28 <=? c) && (c <=? 32)
   || (c =? 133) || (c =? 160) || (c =? 5760)
   || (8192 <=? c) && (c <=? 8202)
   || (c =? 8232) || (c =? 8233) || (c =? 8239) || (c =? 8287) || (c =? 12288))%N.

Fixpoint lstrip (s : pystr) : pystr :=
  match s with
  | c :: r => if is_space c then lstrip r else s
  | [] => []
  end.

Definition rstrip (s : pystr) : pystr := rev (lstrip (rev s)).

(** [s.strip()] *)
Definition strip (s : pystr) : pystr := rstrip (lstrip s).

(** [sep.join(parts)] *)
Fixpoint join (sep : pystr) (parts : list pystr) : pystr :=
  match parts with
  | [] => []
  | [p] => p
  | p :: rest => p ++ sep ++ join sep rest
  end.

(** [needle in hay] for two strings. *)
Definition contains (needle hay : pystr) : Prop :=
  exists pre post, hay = pre ++ needle ++ post.

(** [str(n)] for an [int]. *)
Definition str_int (z : Z) : pystr := u (NilZero.string_of_int (Z.to_int z)).

(** Left padding with zeros, as [%02d] and [%04d] do for a number that is
    not negative. *)
Definition zfill (width : nat) (s : pystr) : pystr :=
  repeat 48%N (width - List.length s) ++ s.

End PyStr.
Export PyStr.

(** ** Binary64 numbers *)

Module PyFloat.

(** A Python [float] is an IEEE 754 binary64 number: 53 bits of precision,
    infinities at exponent 1024.  [S754_finite s m e] stands for
    [(-1)^s * m * 2^e]. *)
Definition float := spec_float.
Definition prec : Z := 53.
Definition emax : Z := 1024.

(** [float(n)] for an [int]: correctly rounded; [None] stands for the
    [OverflowError] CPython raises when the result would be infinite. *)
Definition of_int (z : Z) : option float :=
  match binary_normalize prec emax z 0 false with
  | S754_infinity _ => None
  | f => Some f
  end.

Definition mul : float -> float -> float := SFmul prec emax.
Definition div : float -> float -> float := SFdiv prec emax.

(** The number a decimal literal [digits * 10^(-frac)] denotes, for
    literals whose two parts are exactly representable ([5.6] is
    [decimal 56 1]). *)
Definition decimal (digits : Z) (frac : Z) : float :=
  div (binary_normalize prec emax digits 0 false)
      (binary_normalize prec emax (10 ^ frac) 0 false).

Definition sign_text (s : bool) : pystr := if s then u "-" else [].

Definition round_half_even (num den : Z) : Z :=
  let q := num / den in
  match 2 * (num mod den) ?= den with
  | Lt => q
  | Gt => q + 1
  | Eq => if Z.even q then q else q + 1
  end.

(** The digits of [m * 2^e] with one digit after the point, the exact
    value rounded to nearest, ties to even. *)
Definition fixed1_digits (m : positive) (e : Z) : pystr :=
  let n := round_half_even (Zpos m * 10 * 2 ^ Z.max e 0) (2 ^ Z.max (- e) 0) in
  let ds := zfill 2 (str_int n) in
  firstn (List.length ds - 1) ds ++ u "." ++ skipn (List.length ds - 1) ds.

(** [format(x, '.1f')] for a [float]. *)
Definition fixed1 (x : float) : pystr :=
  match x with
  | S754_nan => u "nan"
  | S754_infinity s => sign_text s ++ u "inf"
  | S754_zero s => sign_text s ++ u "0.0"
  | S754_finite s m e => sign_text s ++ fixed1_digits m e
  end.

(** *** [repr]: the shortest decimal that reads back as the same number *)

(** Compares the decimal [D * 10^q] with the binary [X * 2^t]. *)
Definition cmp_dec_bin (D q X t : Z) : comparison :=
  D * 10 ^ Z.max q 0 * 2 ^ Z.max (- t) 0 ?= X * 2 ^ Z.max t 0 * 10 ^ Z.max (- q) 0.

(** The largest [D] with [D * 10^q <= X * 2^t]. *)
Definition floor_dec (X t q : Z) : Z :=
  (X * 2 ^ Z.max t 0 * 10 ^ Z.max (- q) 0) / (10 ^ Z.max q 0 * 2 ^ Z.max (- t) 0).

Section Shortest.
Variable m : positive.
Variable e : Z.

(** Everything is measured in quarters of the unit in the last place:
    the number is [4m], the midpoint to the next number up is [4m + 2],
    the one to the next number down is [4m - 2], or [4m - 1] at the
    bottom of a binade, where the numbers below are twice as dense. *)
Let t := e - 2.
Let V := 4 * Zpos m.
Let HI := V + 2.
Let LO := if (Zpos m =? 2 ^ 52) && (-1074 <? e) then V - 1 else V - 2.

(** A midpoint reads back as this number when the mantissa is even. *)
Definition rounds_here (D q : Z) : bool :=
  match cmp_dec_bin D q LO t, cmp_dec_bin D q HI t with
  | Gt, Lt => true
  | Eq, Lt | Gt, Eq | Eq, Eq => Z.even (Zpos m)
  | _, _ => false
  end.

(** Descends from a power of ten above the number to the first one
    that has a multiple reading back as it; of two such multiples the
    nearer one is taken, the even one on a tie.  [fuel] bounds the
    descent. *)
Fixpoint shortest (fuel : nat) (q : Z) : Z * Z :=
  let d1 := floor_dec V t q in
  let d2 := d1 + 1 in
  match fuel with
  | O => (d1, q)
  | S fuel' =>
      match rounds_here d1 q, rounds_here d2 q with
      | true, true =>
          match cmp_dec_bin (2 * d1 + 1) q (2 * V) t with
          | Gt => (d1, q)
          | Lt => (d2, q)
          | Eq => (if Z.even d1 then d1 else d2, q)
          end
      | true, false => (d1, q)
      | false, true => (d2, q)
      | false, false => shortest fuel' (q - 1)
      end
  end.

Definition shortest_digits : Z * Z :=
  shortest 400 ((Z.log2 (Zpos m) + e + 1) * 30103 / 100000 + 2).
End Shortest.

(** CPython's layout of the digits: exponent notation when the decimal
    point would fall more than 16 places to the right of the first digit
    or 4 or more places to its left. *)
Definition repr_finite (m : positive) (e : Z) : pystr :=
  let '(D, q) := shortest_digits m e in
  let ds := str_int D in
  let n := Z.of_nat (List.length ds) in
  let decpt := n + q in
  if (decpt <=? -4) || (16 <? decpt) then
    firstn 1 ds ++ (if 1 <? n then u "." ++ skipn 1 ds else [])
      ++ u "e" ++ (if decpt - 1 <? 0 then u "-" else u "+")
      ++ zfill 2 (str_int (Z.abs (decpt - 1)))
  else if decpt <=? 0 then
    u "0." ++ repeat 48%N (Z.to_nat (- decpt)) ++ ds
  else if n <=? decpt then
    ds ++ repeat 48%N (Z.to_nat (decpt - n)) ++ u ".0"
  else
    firstn (Z.to_nat decpt) ds ++ u "." ++ skipn (Z.to_nat decpt) ds.

(** [repr(x)], which is also [str(x)], for a [float]. *)
Definition repr (x : float) : pystr :=
  match x with
  | S754_nan => u "nan"
  | S754_infinity s => sign_text s ++ u "inf"
  | S754_zero s => sign_text s ++ u "0.0"
  | S754_finite s m e => sign_text s ++ repr_finite m e
  end.

(** [bool(x)] *)
Definition nonzero (x : float) : bool :=
  match x with S754_zero _ => false | _ => true end.

End PyFloat.

(** ** Values and exceptions *)

Module PyValue.

(** The data the weather provider hands to the tools: what [json] decoding
    produces.  A [dict] keeps its entries in insertion order; a lookup
    takes the first entry with the key. *)
Inductive value :=
| VNone
| VBool (b : bool)
| VInt (z : Z)
| VFloat (x : PyFloat.float)
| VStr (s : pystr)
| VList (items : list value)
| VDict (entries : list (pystr * value)).

(** The exception classes that occur, those of the [requests] library
    included. *)
Inductive exc_class :=
| KeyError | IndexError | TypeError | AttributeError | ValueError | OverflowError
| RequestException | HTTPError | ConnectionError | ProxyError | SSLError
| Timeout | ConnectTimeout | ReadTimeout | TooManyRedirects
| MissingSchema | InvalidSchema | InvalidURL | ChunkedEncodingError
| ContentDecodingError.

(** An exception: its class and what [str(e)] gives. *)
Record exc := mk_exc { exc_cls : exc_class; exc_text : pystr }.

Definition exc_class_eqb (a b : exc_class) : bool :=
  match a, b with
  | KeyError, KeyError | IndexError, IndexError | TypeError, TypeError
  | AttributeError, AttributeError | ValueError, ValueError
  | OverflowError, OverflowError | RequestException, RequestException
  | HTTPError, HTTPError | ConnectionError, ConnectionError
  | ProxyError, ProxyError | SSLError, SSLError | Timeout, Timeout
  | ConnectTimeout, ConnectTimeout | ReadTimeout, ReadTimeout
  | TooManyRedirects, TooManyRedirects | MissingSchema, MissingSchema
  | InvalidSchema, InvalidSchema | InvalidURL, InvalidURL
  | ChunkedEncodingError, ChunkedEncodingError
  | ContentDecodingError, ContentDecodingError => true
  | _, _ => false
  end.

(** The direct base classes, as [requests.exceptions] declares them
    (bases outside the list above are left out). *)
Definition bases (c : exc_class) : list exc_class :=
  match c with
  | HTTPError | ConnectionError | Timeout | TooManyRedirects | InvalidSchema
  | InvalidURL | ChunkedEncodingError | ContentDecodingError => [RequestException]
  | MissingSchema => [RequestException; ValueError]
  | ProxyError | SSLError => [ConnectionError]
  | ConnectTimeout => [ConnectionError; Timeout]
  | ReadTimeout => [Timeout]
  | _ => []
  end.

(** [issubclass(c, d)]; the hierarchy is three levels deep. *)
Fixpoint issubclass_upto (depth : nat) (c d : exc_class) : bool :=
  exc_class_eqb c d ||
  match depth with
  | O => false
  | S depth' => existsb (fun b => issubclass_upto depth' b d) (bases c)
  end.

Definition issubclass : exc_class -> exc_class -> bool := issubclass_upto 3.

(** [isinstance(e, c)] *)
Definition isinstance_exc (e : exc) (c : exc_class) : bool :=
  issubclass (exc_cls e) c.

(** [type(v).__name__] *)
Definition type_name (v : value) : pystr :=
  match v with
  | VNone => u "NoneType"
  | VBool _ => u "bool"
  | VInt _ => u "int"
  | VFloat _ => u "float"
  | VStr _ => u "str"
  | VList _ => u "list"
  | VDict _ => u "dict"
  end.

(** [bool(v)] *)
Definition truthy (v : value) : bool :=
  match v with
  | VNone => false
  | VBool b => b
  | VInt z => negb (z =? 0)
  | VFloat x => PyFloat.nonzero x
  | VStr s => negb (Nat.eqb (List.length s) 0)
  | VList items => negb (Nat.eqb (List.length items) 0)
  | VDict entries => negb (Nat.eqb (List.length entries) 0)
  end.

Definition pystr_eqb (a b : pystr) : bool :=
  if list_eq_dec N.eq_dec a b then true else false.

Fixpoint dict_lookup (entries : list (pystr * value)) (k : pystr) : option value :=
  match entries with
  | [] => None
  | (k', v) :: rest => if pystr_eqb k' k then Some v else dict_lookup rest k
  end.

(** The value is a [dict] that has the key: [isinstance(v, dict) and k in v]. *)
Definition is_dict_with (v : value) (k : pystr) : bool :=
  match v with
  | VDict entries => match dict_lookup entries k with Some _ => true | None => false end
  | _ => false
  end.

(** *** Rendering *)

Section Rendering.
(** [str.isprintable] on one code point beyond ASCII: a table of the
    Unicode database, which decides what [repr] escapes. *)
Variable isprintable : N -> bool.

Definition hex_digit (n : N) : N :=
  if (n <? 10)%N then (48 + n)%N else (87 + n)%N.

Fixpoint hex_fixed (width : nat) (n : N) : pystr :=
  match width with
  | O => []
  | S w => hex_fixed w (n / 16)%N ++ [hex_digit (n mod 16)%N]
  end.

Definition repr_char (quote c : N) : pystr :=
  if (c =? quote)%N || (c =? 92)%N then [92%N; c]
  else if (c =? 9)%N then u "\t"
  else if (c =? 10)%N then u "\n"
  else if (c =? 13)%N then u "\r"
  else if (c <? 32)%N || (c =? 127)%N then u "\x" ++ hex_fixed 2 c
  else if (c <? 127)%N then [c]
  else if isprintable c then [c]
  else if (c <=? 255)%N then u "\x" ++ hex_fixed 2 c
  else if (c <=? 65535)%N then u "\u" ++ hex_fixed 4 c
  else u "\U" ++ hex_fixed 8 c.

(** [repr(s)] for a [str]: single quotes unless the text has a single
    quote and no double quote. *)
Definition repr_str (s : pystr) : pystr :=
  let quote :=
    if existsb (N.eqb 39) s && negb (existsb (N.eqb 34) s) then 34%N else 39%N in
  [quote] ++ flat_map (repr_char quote) s ++ [quote].

(** [repr(v)] *)
Fixpoint py_repr (v : value) : pystr :=
  match v with
  | VNone => u "None"
  | VBool true => u "True"
  | VBool false => u "False"
  | VInt z => str_int z
  | VFloat x => PyFloat.repr x
  | VStr s => repr_str s
  | VList items => u "[" ++ join (u ", ") (map py_repr items) ++ u "]"
  | VDict entries =>
      u "{"
        ++ join (u ", ")
             (map (fun kv => repr_str (fst kv) ++ u ": " ++ py_repr (snd kv)) entries)
        ++ u "}"
  end.

(** [str(v)], which is what an f-string field without a format gives. *)
Definition py_str (v : value) : pystr :=
  match v with
  | VStr s => s
  | _ => py_repr v
  end.
End Rendering.

(** *** Operations that may raise *)

(** A computation without effects that returns or raises. *)
Definition raising (A : Type) : Type := sum exc A.

#[global] Instance Monad_raising : Monad raising := Monad_either exc.
#[global] Instance Exc_raising : MonadExc exc raising := Exception_either exc.

Section Operations.
Variable isprintable : N -> bool.

Definition not_subscriptable (v : value) : exc :=
  mk_exc TypeError (u "'" ++ type_name v ++ u "' object is not subscriptable").

(** [c[k]] with a [str] key. *)
Definition getitem_str (c : value) (k : pystr) : raising value :=
  match c with
  | VDict entries =>
      match dict_lookup entries k with
      | Some v => ret v
      | None => raise (mk_exc KeyError (repr_str isprintable k))
      end
  | VList _ =>
      raise (mk_exc TypeError (u "list indices must be integers or slices, not str"))
  | VStr _ =>
      raise (mk_exc TypeError (u "string indices must be integers, not 'str'"))
  | _ => raise (not_subscriptable c)
  end.

(** The position an index denotes in a sequence of [n] items: a
    negative index counts from the end. *)
Definition index_in (n i : Z) : option nat :=
  let j := if i <? 0 then i + n else i in
  if (0 <=? j) && (j <? n) then Some (Z.to_nat j) else None.

(** [c[i]] with an [int] index. *)
Definition getitem_int (c : value) (i : Z) : raising value :=
  match c with
  | VList items =>
      match index_in (Z.of_nat (List.length items)) i with
      | Some j =>
          match nth_error items j with
          | Some v => ret v
          | None => raise (mk_exc IndexError (u "list index out of range"))
          end
      | None => raise (mk_exc IndexError (u "list index out of range"))
      end
  | VStr s =>
      match index_in (Z.of_nat (List.length s)) i with
      | Some j =>
          match nth_error s j with
          | Some ch => ret (VStr [ch])
          | None => raise (mk_exc IndexError (u "string index out of range"))
          end
      | None => raise (mk_exc IndexError (u "string index out of range"))
      end
  | VDict _ => raise (mk_exc KeyError (str_int i))
  | _ => raise (not_subscriptable c)
  end.

(** [c.get(k, default)]: only a [dict] has the method. *)
Definition method_get (c : value) (k : pystr) (default : value) : raising value :=
  match c with
  | VDict entries =>
      match dict_lookup entries k with
      | Some v => ret v
      | None => ret default
      end
  | _ =>
      raise (mk_exc AttributeError
               (u "'" ++ type_name c ++ u "' object has no attribute 'get'"))
  end.

(** [len(c)] *)
Definition py_len (c : value) : raising Z :=
  match c with
  | VStr s => ret (Z.of_nat (List.length s))
  | VList items => ret (Z.of_nat (List.length items))
  | VDict entries => ret (Z.of_nat (List.length entries))
  | _ =>
      raise (mk_exc TypeError
               (u "object of type '" ++ type_name c ++ u "' has no len()"))
  end.

Definition float_of_int (z : Z) : raising PyFloat.float :=
  match PyFloat.of_int z with
  | Some x => ret x
  | None => raise (mk_exc OverflowError (u "int too large to convert to float"))
  end.

(** [format(v, '.1f')], the field [{v:.1f}] of an f-string. *)
Definition format_1f (v : value) : raising pystr :=
  match v with
  | VFloat x => ret (PyFloat.fixed1 x)
  | VInt z => x <- float_of_int z ;; ret (PyFloat.fixed1 x)
  | VBool b => x <- float_of_int (if b then 1 else 0) ;; ret (PyFloat.fixed1 x)
  | VStr _ =>
      raise (mk_exc ValueError (u "Unknown format code 'f' for object of type 'str'"))
  | _ =>
      raise (mk_exc TypeError
               (u "unsupported format string passed to " ++ type_name v
                  ++ u ".__format__"))
  end.
End Operations.

(** *** Effects *)

(** A computation over a world [W]: it changes the world and returns or
    raises; what it did to the world before raising stays done. *)
Definition py (W A : Type) : Type := eitherT exc (state W) A.

#[global] Instance Monad_py {W} : Monad (py W) := Monad_eitherT exc (Monad_state W).
#[global] Instance Exc_py {W} : MonadExc exc (py W) :=
  Exception_eitherT exc (Monad_state W).
#[global] Instance State_py {W} : MonadState W (py W) :=
  MonadState_eitherT exc (Monad_state W) (MonadState_state W).

Definition run {W A : Type} (c : py W A) (w : W) : raising A * W :=
  runState (unEitherT c) w.

(** A computation without effects, placed in a world. *)
Definition pure {W A : Type} (r : raising A) : py W A :=
  mkEitherT (ret r).

End PyValue.

(** ** [http_client.py] *)

Module HttpClient.
Import PyValue.

(** What the caller can see of a [requests.Response]. *)
Record response := mk_response { status_code : Z; content : pystr }.

(** What the client does to the outside world. *)
Inductive http_event :=
| Get (url : pystr) (timeout : PyFloat.float)
| Sleep (secs : PyFloat.float).

(** The number of requests issued so far, and everything done so far in
    the order it was done. *)
Record http_world := mk_world { issued : nat; trace : list http_event }.

(** How a [for] body ends: it falls through to the next item, leaves the
    loop, or returns from the enclosing function. *)
Inductive flow (A : Type) :=
| Next
| Break
| Return (a : A).
Arguments Next {A}.
Arguments Break {A}.
Arguments Return {A} a.

(** [for x in items: body]; [Some a] when the body returned [a]. *)
Fixpoint for_in {W A : Type} (items : list Z) (body : Z -> py W (flow A))
  : py W (option A) :=
  match items with
  | [] => ret None
  | x :: rest =>
      f <- body x ;;
      match f with
      | Next => for_in rest body
      | Break => ret None
      | Return a => ret (Some a)
      end
  end.

Fixpoint range_from (lo : Z) (n : nat) : list Z :=
  match n with
  | O => []
  | S n' => lo :: range_from (lo + 1) n'
  end.

(** [range(lo, hi)] *)
Definition range (lo hi : Z) : list Z := range_from lo (Z.to_nat (hi - lo)).

(** [time.sleep] refuses a length that is not a number, one that does not
    fit the clock's signed 64-bit count of nanoseconds, and a negative
    one; it checks in this order. *)
Definition sleep_refusal (secs : PyFloat.float) : option exc :=
  let ns := PyFloat.mul secs (binary_normalize PyFloat.prec PyFloat.emax (10 ^ 9) 0 false) in
  let limit := binary_normalize PyFloat.prec PyFloat.emax (2 ^ 63) 0 false in
  match secs with
  | S754_nan => Some (mk_exc ValueError (u "Invalid value NaN (not a number)"))
  | _ =>
      if negb (SFleb (SFopp limit) ns && SFltb ns limit) then
        Some (mk_exc OverflowError (u "timestamp too large to convert to C _PyTime_t"))
      else if SFltb ns (S754_zero false) then
        Some (mk_exc ValueError (u "sleep length must be non-negative"))
      else None
  end.

(** [backoff_seconds * attempt]: a [float] times an [int]. *)
Definition backoff_delay (backoff_seconds : PyFloat.float) (attempt : Z)
  : raising PyFloat.float :=
  x <- float_of_int attempt ;; ret (PyFloat.mul backoff_seconds x).

(** [except (requests.ConnectionError, requests.Timeout)] *)
Definition retryable (e : exc) : bool :=
  isinstance_exc e ConnectionError || isinstance_exc e Timeout.

Definition default_retries : Z := 3.
Definition default_backoff_seconds : PyFloat.float := PyFloat.decimal 10 1.
Definition default_timeout : PyFloat.float := PyFloat.decimal 100 1.

Section Client.
(** The [requests] library with the network behind it: what the [n]-th
    request of the process comes to, a response or an exception. *)
Variable network : nat -> pystr -> PyFloat.float -> raising response.

(** [requests.get(url, timeout=timeout)] *)
Definition requests_get (url : pystr) (timeout : PyFloat.float) : py http_world response :=
  w <- get ;;
  put (mk_world (S (issued w)) (trace w ++ [Get url timeout])) ;;
  pure (network (issued w) url timeout).

(** [time.sleep(secs)] *)
Definition time_sleep (secs : PyFloat.float) : py http_world unit :=
  match sleep_refusal secs with
  | Some e => raise e
  | None => modify (fun w => mk_world (issued w) (trace w ++ [Sleep secs])) ;; ret tt
  end.

(** One turn of the loop: the [try] statement with its [except] clause.
    [last_exc] is assigned and never read, and is left out. *)
Definition attempt_body (url : pystr) (retries : Z)
           (backoff_seconds timeout : PyFloat.float) (attempt : Z)
  : py http_world (flow response) :=
  catch
    (resp <- requests_get url timeout ;;
     ret (Return resp))
    (fun exc =>
       if retryable exc then
         if attempt =? retries then ret Break
         else
           secs <- pure (backoff_delay backoff_seconds attempt) ;;
           time_sleep secs ;;
           ret Next
       else raise exc).

(** [get_with_retries(url, retries=..., backoff_seconds=..., timeout=...)]:
    the loop, and [return None] after it. *)
Definition get_with_retries (url : pystr) (retries : Z)
           (backoff_seconds timeout : PyFloat.float) : py http_world (option response) :=
  returned <-
    for_in (range 1 (retries + 1)) (attempt_body url retries backoff_seconds timeout) ;;
  match returned with
  | Some resp => ret (Some resp)
  | None => ret None
  end.
End Client.

End HttpClient.

(** ** [agent_weather_time.py]: the tools *)

Module Agent.
Import PyValue.

(** [AgentContext], with the defaults of the dataclass. *)
Record AgentContext := mk_context {
  user_id : pystr;
  user_name : pystr;
  default_city : pystr;
  default_timezone : pystr
}.

Definition new_context (user_id : pystr) : AgentContext :=
  mk_context user_id (u "Пользователь") (u "Иркутск,ru") (u "Europe/Moscow").

(** What a tool sees of its [ToolRuntime]. *)
Record ToolRuntime := mk_runtime { context : AgentContext }.

(** A naive [datetime]. *)
Record datetime := mk_datetime {
  year : Z; month : Z; day : Z;
  hour : Z; minute : Z; second : Z; microsecond : Z
}.

Definition two (n : Z) : pystr := zfill 2 (str_int n).

(** [d.replace(microsecond=us)] *)
Definition replace_microsecond (d : datetime) (us : Z) : datetime :=
  mk_datetime (year d) (month d) (day d) (hour d) (minute d) (second d) us.

(** [d.isoformat()]: the fraction is printed only when it is not zero. *)
Definition isoformat (d : datetime) : pystr :=
  zfill 4 (str_int (year d)) ++ u "-" ++ two (month d) ++ u "-" ++ two (day d)
    ++ u "T" ++ two (hour d) ++ u ":" ++ two (minute d) ++ u ":" ++ two (second d)
    ++ (if microsecond d =? 0 then [] else u "." ++ zfill 6 (str_int (microsecond d))).

(** [d.strftime("%d.%m.%Y %H:%M:%S")]; the C library decides the width
    of [%Y], which matters before the year 1000 only. *)
Definition strftime_dmy_hms (d : datetime) : pystr :=
  two (day d) ++ u "." ++ two (month d) ++ u "." ++ str_int (year d)
    ++ u " " ++ two (hour d) ++ u ":" ++ two (minute d) ++ u ":" ++ two (second d).

(** What a tool asks of the outside world. *)
Inductive tool_event :=
| WeatherByCity (city : pystr)
| DailyForecastByCity (city : pystr)
| Now.

Definition tool_world := list tool_event.

Definition is_none (v : value) : bool :=
  match v with VNone => true | _ => false end.

(** [a or b] *)
Definition str_or (a b : pystr) : pystr := if truthy (VStr a) then a else b.
Definition value_or (a b : value) : value := if truthy a then a else b.

Definition default_day_offset : Z := 1.

(** [city.strip() or "неизвестный город"], the value both weather tools
    bind to [city_norm]. *)
Definition city_norm (city : pystr) : pystr :=
  str_or (strip city) (u "неизвестный город").

Section Tools.
Variable isprintable : N -> bool.

(** The [weather_app] module is not part of the sources: its two lookups
    are taken as they are used, from a city to a decoded record. *)
Variable get_weather_by_city : pystr -> value.
Variable get_daily_forecast_by_city : pystr -> value.

(** What the host's local clock reads when it is asked. *)
Variable host_clock : datetime.

Definition call_weather_by_city (city : pystr) : py tool_world value :=
  modify (fun t => t ++ [WeatherByCity city]) ;;
  ret (get_weather_by_city city).

Definition call_daily_forecast_by_city (city : pystr) : py tool_world value :=
  modify (fun t => t ++ [DailyForecastByCity city]) ;;
  ret (get_daily_forecast_by_city city).

(** [datetime.now()] *)
Definition datetime_now : py tool_world datetime :=
  modify (fun t => t ++ [Now]) ;;
  ret host_clock.

Let str := py_str isprintable.
Let item_str := getitem_str isprintable.

(** The [try] block of [get_weather_for_location]. *)
Definition weather_sentence (weather : value) : raising pystr :=
  name <- item_str weather (u "name") ;;
  main <- item_str weather (u "main") ;;
  temp <- item_str main (u "temp") ;;
  conditions <- item_str weather (u "weather") ;;
  first <- getitem_int conditions 0 ;;
  description <- item_str first (u "description") ;;
  main' <- item_str weather (u "main") ;;
  humidity <- method_get main' (u "humidity") VNone ;;
  wind <- method_get weather (u "wind") (VDict []) ;;
  wind_speed <- method_get wind (u "speed") VNone ;;
  temp_text <- format_1f temp ;;
  let parts :=
    [u "Текущая погода в " ++ str name ++ u ": " ++ temp_text ++ u "°C, "
       ++ str description] in
  let parts :=
    if is_none humidity then parts
    else parts ++ [u "влажность " ++ str humidity ++ u "%"] in
  let parts :=
    if is_none wind_speed then parts
    else parts ++ [u "ветер " ++ str wind_speed ++ u " м/с"] in
  ret (join (u ", ") parts ++ u ".").

Definition get_weather_for_location (city : pystr) : py tool_world pystr :=
  let city_norm := city_norm city in
  weather <- call_weather_by_city city_norm ;;
  if is_dict_with weather (u "error") then
    error <- pure (item_str weather (u "error")) ;;
    ret (u "Не удалось получить погоду для " ++ city_norm ++ u ": " ++ str error)
  else
    catch
      (pure (weather_sentence weather))
      (fun e =>
         ret (u "Неожиданный формат ответа погоды для " ++ city_norm ++ u ": "
                ++ exc_text e)).

(** The [if]/[elif]/[else] that names the day. *)
Definition day_label (day_offset : Z) : pystr :=
  if day_offset =? 0 then u "сегодня"
  else if day_offset =? 1 then u "завтра"
  else u "через " ++ str_int day_offset ++ u " дней".

(** The [try] block of [get_forecast_for_location]. *)
Definition forecast_sentence (city_norm : pystr) (day_offset : Z) (daily_data : value)
  : raising pystr :=
  daily_list <- method_get daily_data (u "daily") VNone ;;
  if negb (truthy daily_list) then
    ret (u "Неожиданный формат ежедневного прогноза для " ++ city_norm ++ u ".")
  else
    n <- py_len daily_list ;;
    if n <=? day_offset then
      n' <- py_len daily_list ;;
      ret (u "OpenWeatherMap вернул прогноз только на " ++ str_int n' ++ u " дней. "
             ++ u "day_offset=" ++ str_int day_offset
             ++ u " выйти за доступный диапазон.")
    else
      item <- getitem_int daily_list day_offset ;;
      temp <- method_get item (u "temp") VNone ;;
      let temp_block := value_or temp (VDict []) in
      temp_min <- method_get temp_block (u "min") VNone ;;
      temp_max <- method_get temp_block (u "max") VNone ;;
      temp_day <- method_get temp_block (u "day") VNone ;;
      conditions <- method_get item (u "weather") VNone ;;
      let weather_list := value_or conditions (VList []) in
      description <-
        (if truthy weather_list then
           first <- getitem_int weather_list 0 ;;
           method_get first (u "description") VNone
         else ret (VStr (u "нет описания"))) ;;
      humidity <- method_get item (u "humidity") VNone ;;
      wind_speed <- method_get item (u "wind_speed") VNone ;;
      let parts :=
        [u "Прогноз для " ++ city_norm ++ u " на " ++ day_label day_offset ++ u ": "
           ++ str description] in
      parts <-
        (if negb (is_none temp_min) && negb (is_none temp_max) then
           lo <- format_1f temp_min ;;
           hi <- format_1f temp_max ;;
           ret (parts ++ [u "температура от " ++ lo ++ u "°C до " ++ hi ++ u "°C"])
         else if negb (is_none temp_day) then
           around <- format_1f temp_day ;;
           ret (parts ++ [u "температура около " ++ around ++ u "°C"])
         else ret parts) ;;
      let parts :=
        if is_none humidity then parts
        else parts ++ [u "влажность " ++ str humidity ++ u "%"] in
      let parts :=
        if is_none wind_speed then parts
        else parts ++ [u "ветер " ++ str wind_speed ++ u " м/с"] in
      ret (join (u ", ") parts ++ u " (по данным OpenWeatherMap One Call).").

Definition get_forecast_for_location (city : pystr) (day_offset : Z) : py tool_world pystr :=
  let city_norm := city_norm city in
  if day_offset <? 0 then ret (u "day_offset не может быть отрицательным.")
  else
    daily_data <- call_daily_forecast_by_city city_norm ;;
    if is_dict_with daily_data (u "error") then
      error <- pure (item_str daily_data (u "error")) ;;
      ret (u "Не удалось получить ежедневный прогноз для " ++ city_norm ++ u ": "
             ++ str error)
    else
      catch
        (pure (forecast_sentence city_norm day_offset daily_data))
        (fun e =>
           ret (u "Не удалось обработать данные ежедневного прогноза для "
                  ++ city_norm ++ u ": " ++ exc_text e)).

Definition get_user_location (runtime : ToolRuntime) : py tool_world pystr :=
  let ctx := context runtime in
  ret (default_city ctx).

Definition get_current_time (runtime : ToolRuntime) (timezone : option pystr)
  : py tool_world pystr :=
  now <- datetime_now ;;
  let iso_str := isoformat (replace_microsecond now 0) in
  let human := strftime_dmy_hms now in
  ret (u "Локальное системное время: " ++ human ++ u " (ISO: " ++ iso_str ++ u ")").
End Tools.

End Agent.

(** ** The shape of a forecast entry *)

Module DataModel.
Import PyValue Agent.

(** A temperature: a [float], or an [int] that has a [float]. *)
Definition is_number (v : value) : bool :=
  match v with
  | VFloat _ => true
  | VInt z => match PyFloat.of_int z with Some _ => true | None => false end
  | _ => false
  end.

Definition optional_number (v : value) : bool := is_none v || is_number v.

(** The field is absent or its value passes. *)
Definition field_ok (p : value -> bool) (fields : list (pystr * value)) (k : pystr)
  : bool :=
  match dict_lookup fields k with
  | None => true
  | Some v => p v
  end.

(** The [temp] block of a day: minimum, maximum and day temperature,
    each optional. *)
Definition temp_block_ok (v : value) : bool :=
  match v with
  | VNone => true
  | VDict fields =>
      field_ok optional_number fields (u "min")
      && field_ok optional_number fields (u "max")
      && field_ok optional_number fields (u "day")
  | _ => false
  end.

(** The list of condition descriptions of a day: records, if any. *)
Definition conditions_ok (v : value) : bool :=
  match v with
  | VNone => true
  | VList [] => true
  | VList (VDict _ :: _) => true
  | _ => false
  end.

(** A daily forecast entry as the provider delivers it: a record whose
    [temp] and [weather] fields, when present, have the shapes above;
    humidity and wind speed are free. *)
Definition daily_entry_ok (item : value) : bool :=
  match item with
  | VDict fields =>
      field_ok temp_block_ok fields (u "temp")
      && field_ok conditions_ok fields (u "weather")
  | _ => false
  end.

End DataModel.

(** ** What a run of the client looks like *)

Module HttpTrace.
Import PyValue HttpClient.

(** The pause after the failed attempt number [attempt]:
    [backoff_seconds * attempt] in binary64. *)
Definition pause (backoff_seconds : PyFloat.float) (attempt : Z) : PyFloat.float :=
  PyFloat.mul backoff_seconds
    (binary_normalize PyFloat.prec PyFloat.emax attempt 0 false).

(** [time.sleep] takes the pauses after the attempts 1 to [n]. *)
Definition pauses_accepted (backoff_seconds : PyFloat.float) (n : nat) : Prop :=
  forall attempt,
    1 <= attempt <= Z.of_nat n ->
    backoff_delay backoff_seconds attempt = inr (pause backoff_seconds attempt)
    /\ sleep_refusal (pause backoff_seconds attempt) = None.

(** Requests with a pause after each. *)
Definition paused_requests (url : pystr) (timeout : PyFloat.float)
           (pauses : list PyFloat.float) : list http_event :=
  flat_map (fun secs => [Get url timeout; Sleep secs]) pauses.

(** The pauses of a linear backoff after [failed] failed attempts. *)
Definition linear_pauses (backoff_seconds : PyFloat.float) (failed : nat)
  : list PyFloat.float :=
  map (pause backoff_seconds) (range 1 (1 + Z.of_nat failed)).

(** The first [n] requests from the state [w] on fail with a connection
    error or a timeout. *)
Definition requests_fail (network : nat -> pystr -> PyFloat.float -> raising response)
           (url : pystr) (timeout : PyFloat.float) (w : http_world) (n : nat) : Prop :=
  forall i, (i < n)%nat ->
            exists e, network (issued w + i)%nat url timeout = inl e
                      /\ retryable e = true.

Section Turn.
Variable network : nat -> pystr -> PyFloat.float -> raising response.
Variables (url : pystr) (timeout : PyFloat.float).
Variables (retries : Z) (backoff_seconds : PyFloat.float).

(** The state once one more request has gone out. *)
Definition after_get (w : http_world) : http_world :=
  mk_world (S (issued w)) (trace w ++ [Get url timeout]).

(** How one turn of the loop can end. *)
Inductive turn (attempt : Z) (w : http_world)
  : raising (flow response) -> http_world -> Prop :=
| turn_answered resp :
    network (issued w) url timeout = inr resp ->
    turn attempt w (inr (Return resp)) (after_get w)
| turn_other_failure e :
    network (issued w) url timeout = inl e ->
    retryable e = false ->
    turn attempt w (inl e) (after_get w)
| turn_last_failure e :
    network (issued w) url timeout = inl e ->
    retryable e = true ->
    attempt = retries ->
    turn attempt w (inr Break) (after_get w)
| turn_no_pause e e' :
    network (issued w) url timeout = inl e ->
    retryable e = true ->
    attempt <> retries ->
    backoff_delay backoff_seconds attempt = inl e' ->
    turn attempt w (inl e') (after_get w)
| turn_pause_refused e secs e' :
    network (issued w) url timeout = inl e ->
    retryable e = true ->
    attempt <> retries ->
    backoff_delay backoff_seconds attempt = inr secs ->
    sleep_refusal secs = Some e' ->
    turn attempt w (inl e') (after_get w)
| turn_paused e secs :
    network (issued w) url timeout = inl e ->
    retryable e = true ->
    attempt <> retries ->
    backoff_delay backoff_seconds attempt = inr secs ->
    sleep_refusal secs = None ->
    turn attempt w (inr Next)
         (mk_world (S (issued w)) (trace w ++ [Get url timeout; Sleep secs])).
End Turn.

End HttpTrace.

(** ** The parts of a sentence *)

Module Sentences.
Import PyValue Agent.

(** [d.get(k)]: the entry of a record, [None] when it has none. *)
Definition field (entries : list (pystr * value)) (k : pystr) : value :=
  match dict_lookup entries k with
  | Some v => v
  | None => VNone
  end.

(** A part that is in the sentence only when its value is not [None]:
    a comma, the label, the value and the unit. *)
Definition optional_segment (isprintable : N -> bool) (label : pystr) (v : value)
           (unit : pystr) : pystr :=
  if is_none v then [] else u ", " ++ label ++ py_str isprintable v ++ unit.

(** The description a forecast shows for the [weather] field of a day:
    that of the first condition, if there is one. *)
Definition shown_description (conditions : value) : value :=
  match conditions with
  | VList (VDict first :: _) => field first (u "description")
  | _ => VStr (u "нет описания")
  end.

(** The first field the current-weather tool reads and does not find, in
    the order in which it reads: [name], [main], [temp] in [main],
    [weather], [description] in the first condition.  Parts that are there
    but have another shape are not judged here. *)
Definition missing_field (entries : list (pystr * value)) : option pystr :=
  match dict_lookup entries (u "name") with
  | None => Some (u "name")
  | Some _ =>
      match dict_lookup entries (u "main") with
      | None => Some (u "main")
      | Some (VDict main) =>
          match dict_lookup main (u "temp") with
          | None => Some (u "temp")
          | Some _ =>
              match dict_lookup entries (u "weather") with
              | None => Some (u "weather")
              | Some (VList (VDict first :: _)) =>
                  match dict_lookup first (u "description") with
                  | None => Some (u "description")
                  | Some _ => None
                  end
              | Some _ => None
              end
          end
      | Some _ => None
      end
  end.

End Sentences.

(** ** Concrete situations *)

Module Scenarios.
Import PyValue HttpClient Agent.

(** A network on which the first two requests fail and the third is
    answered with a server error. *)
Definition flaky_network (n : nat) (url : pystr) (timeout : PyFloat.float)
  : raising response :=
  match n with
  | O => inl (mk_exc ConnectionError (u "connection refused"))
  | S O => inl (mk_exc ConnectionError (u "connection reset"))
  | _ => inr (mk_response 503 (u "unavailable"))
  end.

(** A network on which every request times out. *)
Definition dead_network (n : nat) (url : pystr) (timeout : PyFloat.float)
  : raising response :=
  inl (mk_exc ReadTimeout (u "read timed out")).

(** The current-weather record of the provider for Moscow. *)
Definition moscow_record : value :=
  VDict [(u "name", VStr (u "Москва"));
         (u "main", VDict [(u "temp", VFloat (PyFloat.decimal 56 1));
                           (u "humidity", VInt 80)]);
         (u "weather", VList [VDict [(u "description", VStr (u "облачно"))]]);
         (u "wind", VDict [(u "speed", VFloat (PyFloat.decimal 32 1))])].

(** The provider's record of a failure. *)
Definition error_record (text : pystr) : value := VDict [(u "error", VStr text)].

(** One day of a forecast. *)
Definition snowy_day : value :=
  VDict [(u "temp", VDict [(u "min", VFloat (PyFloat.decimal (-32) 1));
                           (u "max", VInt 4);
                           (u "day", VFloat (PyFloat.decimal 15 1))]);
         (u "weather", VList [VDict [(u "description", VStr (u "снег"))]]);
         (u "humidity", VInt 91);
         (u "wind_speed", VFloat (PyFloat.decimal 475 2))].

(** A daily forecast of [n] days. *)
Definition forecast_record (n : nat) : value :=
  VDict [(u "daily", VList (repeat snowy_day n))].

(** A forecast that has no day at all. *)
Definition empty_forecast : value := VDict [(u "daily", VList [])].

(** A current-weather record without humidity and wind. *)
Definition tver_record : value :=
  VDict [(u "name", VStr (u "Тверь"));
         (u "main", VDict [(u "temp", VInt (-3))]);
         (u "weather", VList [VDict [(u "description", VStr (u "ясно"))]])].

(** A day known by its day temperature only, and one with no temperature
    and no conditions. *)
Definition mild_day : value :=
  VDict [(u "temp", VDict [(u "day", VFloat (PyFloat.decimal 125 1));
                           (u "min", VNone)]);
         (u "weather", VList [VDict [(u "description", VStr (u "дождь"))]])].

Definition bare_day : value := VDict [(u "humidity", VInt 40)].

(** A record that carries a failure next to data. *)
Definition failed_record : value :=
  VDict [(u "name", VStr (u "Москва"));
         (u "error", VDict [(u "cod", VInt 404)])].

(** Every Unicode character taken as printable. *)
Definition all_printable (c : N) : bool := true.

End Scenarios.

(** * Properties *)

(** ** The models at work *)

Module Examples.
Import PyValue HttpClient Agent Scenarios.

(** Numbers as CPython prints them. *)
Example repr_of_literals :
  PyFloat.repr (PyFloat.decimal 56 1) = u "5.6"
  /\ PyFloat.repr (PyFloat.decimal 32 1) = u "3.2"
  /\ PyFloat.repr (PyFloat.decimal (-1725) 2) = u "-17.25"
  /\ PyFloat.repr (PyFloat.decimal 123456789125 3) = u "123456789.125".
Proof. vm_compute. repeat split. Qed.

Example repr_of_results :
  PyFloat.repr (SFadd PyFloat.prec PyFloat.emax (PyFloat.decimal 1 1) (PyFloat.decimal 2 1))
  = u "0.30000000000000004"
  /\ PyFloat.repr (PyFloat.div (PyFloat.decimal 1 0) (PyFloat.decimal 3 0))
     = u "0.3333333333333333".
Proof. vm_compute. repeat split. Qed.

Example repr_with_exponent :
  PyFloat.repr (PyFloat.decimal (10 ^ 16) 0) = u "1e+16"
  /\ PyFloat.repr (PyFloat.decimal (10 ^ 22) 0) = u "1e+22"
  /\ PyFloat.repr (PyFloat.decimal 1 5) = u "1e-05"
  /\ PyFloat.repr (S754_finite false 1 (-1074)) = u "5e-324"
  /\ PyFloat.repr (PyFloat.decimal (2 ^ 63) 0) = u "9.223372036854776e+18".
Proof. vm_compute. repeat split. Qed.

Example one_decimal :
  PyFloat.fixed1 (PyFloat.decimal 56 1) = u "5.6"
  /\ PyFloat.fixed1 (PyFloat.decimal 25 2) = u "0.2"
  /\ PyFloat.fixed1 (PyFloat.decimal 35 2) = u "0.3"
  /\ PyFloat.fixed1 (PyFloat.decimal 5 2) = u "0.1"
  /\ PyFloat.fixed1 (PyFloat.decimal (-4) 2) = u "-0.0"
  /\ PyFloat.fixed1 (PyFloat.decimal (10 ^ 22) 0) = u "10000000000000000000000.0".
Proof. vm_compute. repeat split. Qed.

Example one_decimal_of_values :
  format_1f (VInt 4) = inr (u "4.0")
  /\ format_1f (VBool true) = inr (u "1.0")
  /\ format_1f (VStr (u "4"))
     = inl (mk_exc ValueError (u "Unknown format code 'f' for object of type 'str'"))
  /\ format_1f (VInt (10 ^ 400))
     = inl (mk_exc OverflowError (u "int too large to convert to float")).
Proof. vm_compute. repeat split. Qed.

Example repr_of_containers :
  py_repr all_printable
    (VList [VInt 1; VStr (u "a"); VNone; VFloat (PyFloat.decimal 25 1);
            VDict [(u "k", VList [VBool true])]])
  = u "[1, 'a', None, 2.5, {'k': [True]}]".
Proof. vm_compute. reflexivity. Qed.

Example connect_timeout_is_both :
  retryable (mk_exc ConnectTimeout []) = true
  /\ retryable (mk_exc SSLError []) = true
  /\ retryable (mk_exc ReadTimeout []) = true
  /\ retryable (mk_exc TooManyRedirects []) = false
  /\ retryable (mk_exc ValueError []) = false.
Proof. vm_compute. repeat split. Qed.

(** A failure that is no connection error and no timeout is not caught. *)
Example other_failures_propagate :
  run (get_with_retries
         (fun _ _ _ => inl (mk_exc MissingSchema (u "no scheme supplied")))
         (u "example.org") 3 default_backoff_seconds default_timeout) (mk_world 0 [])
  = (inl (mk_exc MissingSchema (u "no scheme supplied")),
     mk_world 1 [Get (u "example.org") default_timeout]).
Proof. vm_compute. reflexivity. Qed.

(** A negative pause is refused by [time.sleep]: the call ends after its
    first request. *)
Example negative_backoff_raises :
  run (get_with_retries dead_network (u "http://example.org") 2
         (PyFloat.decimal (-10) 1) default_timeout) (mk_world 0 [])
  = (inl (mk_exc ValueError (u "sleep length must be non-negative")),
     mk_world 1 [Get (u "http://example.org") default_timeout]).
Proof. vm_compute. reflexivity. Qed.

Example weather_of_empty_record :
  run (get_weather_for_location all_printable (fun _ => VDict []) (u "Тверь")) []
  = (inr (u "Неожиданный формат ответа погоды для Тверь: 'name'"),
     [WeatherByCity (u "Тверь")]).
Proof. vm_compute. reflexivity. Qed.

Example weather_without_humidity_and_wind :
  run (get_weather_for_location all_printable
         (fun _ => VDict [(u "name", VStr (u "Тверь"));
                          (u "main", VDict [(u "temp", VInt (-3))]);
                          (u "weather", VList [VDict [(u "description", VStr (u "ясно"))]])])
         (u " Тверь ")) []
  = (inr (u "Текущая погода в Тверь: -3.0°C, ясно."), [WeatherByCity (u "Тверь")]).
Proof. vm_compute. reflexivity. Qed.

Example forecast_in_five_days :
  run (get_forecast_for_location all_printable (fun _ => forecast_record 8) (u "Омск") 5) []
  = (inr (u "Прогноз для Омск на через 5 дней: снег, температура от -3.2°C до 4.0°C, влажность 91%, ветер 4.75 м/с (по данным OpenWeatherMap One Call)."),
     [DailyForecastByCity (u "Омск")]).
Proof. vm_compute. reflexivity. Qed.

Example forecast_of_broken_entry :
  run (get_forecast_for_location all_printable
         (fun _ => VDict [(u "daily", VList [VNone])]) (u "Омск") 0) []
  = (inr (u "Не удалось обработать данные ежедневного прогноза для Омск: 'NoneType' object has no attribute 'get'"),
     [DailyForecastByCity (u "Омск")]).
Proof. vm_compute. reflexivity. Qed.

Example time_on_the_host_clock :
  run (get_current_time (mk_datetime 2026 11 3 9 5 7 123456)
         (mk_runtime (new_context (u "user-1"))) (Some (u "Asia/Irkutsk"))) []
  = (inr (u "Локальное системное время: 03.11.2026 09:05:07 (ISO: 2026-11-03T09:05:07)"),
     [Now]).
Proof. vm_compute. reflexivity. Qed.

Example location_from_context :
  run (get_user_location (mk_runtime (new_context (u "user-1")))) []
  = (inr (u "Иркутск,ru"), []).
Proof. vm_compute. reflexivity. Qed.

End Examples.

(** ** Trimming *)

Module PyStrFacts.

Lemma lstrip_idempotent s : lstrip (lstrip s) = lstrip s.
Proof.
  induction s as [| c r IH]; [reflexivity |].
  cbn [lstrip]. destruct (is_space c) eqn:E; [exact IH |].
  cbn [lstrip]. rewrite E. reflexivity.
Qed.

(** What [lstrip] leaves does not start with white space. *)
Lemma lstrip_head s c r : lstrip s = c :: r -> is_space c = false.
Proof.
  induction s as [| d s IH]; [discriminate |].
  cbn [lstrip]. destruct (is_space d) eqn:E; [exact IH |].
  intros H. injection H as -> _. exact E.
Qed.

(** [lstrip] removes a prefix. *)
Lemma lstrip_suffix s : exists sp, s = sp ++ lstrip s.
Proof.
  induction s as [| c r (sp & IH)]; [exists []; reflexivity |].
  cbn [lstrip]. destruct (is_space c).
  - exists (c :: sp). cbn [app]. f_equal. exact IH.
  - exists []. reflexivity.
Qed.

Lemma rstrip_prefix s : exists sp, s = rstrip s ++ sp.
Proof.
  unfold rstrip. destruct (lstrip_suffix (rev s)) as (sp & H).
  exists (rev sp). rewrite <- rev_app_distr, <- H, rev_involutive. reflexivity.
Qed.

Lemma rstrip_idempotent s : rstrip (rstrip s) = rstrip s.
Proof. unfold rstrip. rewrite rev_involutive, lstrip_idempotent. reflexivity. Qed.

(** [str.strip] has nothing left to remove from what it returns. *)
Lemma strip_idempotent s : strip (strip s) = strip s.
Proof.
  unfold strip.
  assert (lstrip (rstrip (lstrip s)) = rstrip (lstrip s)) as ->.
  { destruct (rstrip_prefix (lstrip s)) as (sp & H).
    destruct (rstrip (lstrip s)) as [| c r] eqn:E; [reflexivity |].
    cbn [app] in H. apply lstrip_head in H.
    cbn [lstrip]. rewrite H. reflexivity. }
  apply rstrip_idempotent.
Qed.

End PyStrFacts.

(** ** How computations run *)

Module RunFacts.
Import PyValue.

Section Run.
Context {W : Type}.

Lemma run_ret {A} (a : A) (w : W) : run (ret a) w = (inr a, w).
Proof. reflexivity. Qed.

Lemma run_raise {A} (e : exc) (w : W) : run (raise e : py W A) w = (inl e, w).
Proof. reflexivity. Qed.

Lemma run_pure {A} (r : raising A) (w : W) : run (pure r) w = (r, w).
Proof. reflexivity. Qed.

Lemma run_bind {A B} (c : py W A) (f : A -> py W B) (w : W) :
  run (bind c f) w =
  match run c w with
  | (inr a, w') => run (f a) w'
  | (inl e, w') => (inl e, w')
  end.
Proof.
  unfold run; simpl. destruct (runState (unEitherT c) w) as [[e | a] w']; reflexivity.
Qed.

Lemma run_catch {A} (c : py W A) (h : exc -> py W A) (w : W) :
  run (catch c h) w =
  match run c w with
  | (inr a, w') => (inr a, w')
  | (inl e, w') => run (h e) w'
  end.
Proof.
  unfold run; simpl. destruct (runState (unEitherT c) w) as [[e | a] w']; reflexivity.
Qed.

Lemma run_get (w : W) : run get w = (inr w, w).
Proof. reflexivity. Qed.

Lemma run_put (w' w : W) : run (put w') w = (inr tt, w').
Proof. reflexivity. Qed.

Lemma run_modify (f : W -> W) (w : W) : run (modify f) w = (inr w, f w).
Proof. reflexivity. Qed.
End Run.

Create Rewrite HintDb py_run.
#[export] Hint Rewrite @run_ret @run_raise @run_pure @run_bind @run_catch
  @run_get @run_put @run_modify : py_run.

End RunFacts.

(** ** The retrying client *)

Module HttpClientFacts.
Import PyValue HttpClient RunFacts Scenarios.

Section Client.
Variable network : nat -> pystr -> PyFloat.float -> raising response.
Variables (url : pystr) (timeout : PyFloat.float).

Lemma run_requests_get (w : http_world) :
  run (requests_get network url timeout) w =
  (network (issued w) url timeout,
   mk_world (S (issued w)) (trace w ++ [Get url timeout])).
Proof. reflexivity. Qed.

Lemma run_time_sleep (secs : PyFloat.float) (w : http_world) :
  sleep_refusal secs = None ->
  run (time_sleep secs) w = (inr tt, mk_world (issued w) (trace w ++ [Sleep secs])).
Proof. intros H. unfold time_sleep. rewrite H. reflexivity. Qed.

Lemma get_with_retries_unfold retries backoff_seconds :
  get_with_retries network url retries backoff_seconds timeout =
  (returned <-
     for_in (range 1 (retries + 1))
       (attempt_body network url retries backoff_seconds timeout) ;;
   match returned with
   | Some resp => ret (Some resp)
   | None => ret None
   end).
Proof. reflexivity. Qed.

(** A turn whose request goes through returns the response as it is. *)
Lemma attempt_answered retries backoff_seconds attempt resp w :
  network (issued w) url timeout = inr resp ->
  run (attempt_body network url retries backoff_seconds timeout attempt) w =
  (inr (Return resp), mk_world (S (issued w)) (trace w ++ [Get url timeout])).
Proof.
  intros H. unfold attempt_body.
  rewrite run_catch, run_bind, run_requests_get, H. reflexivity.
Qed.

(** The last turn leaves the loop when its request fails. *)
Lemma attempt_failed_last retries backoff_seconds e w :
  network (issued w) url timeout = inl e ->
  retryable e = true ->
  run (attempt_body network url retries backoff_seconds timeout retries) w =
  (inr Break, mk_world (S (issued w)) (trace w ++ [Get url timeout])).
Proof.
  intros H He. unfold attempt_body.
  rewrite run_catch, run_bind, run_requests_get, H, He, Z.eqb_refl. reflexivity.
Qed.

(** An earlier turn sleeps and goes on when its request fails. *)
Lemma attempt_failed_early retries backoff_seconds attempt e secs w :
  network (issued w) url timeout = inl e ->
  retryable e = true ->
  attempt <> retries ->
  backoff_delay backoff_seconds attempt = inr secs ->
  sleep_refusal secs = None ->
  run (attempt_body network url retries backoff_seconds timeout attempt) w =
  (inr Next,
   mk_world (S (issued w)) (trace w ++ [Get url timeout] ++ [Sleep secs])).
Proof.
  intros H He Hne Hd Hs. unfold attempt_body.
  rewrite run_catch, run_bind, run_requests_get, H, He.
  apply Z.eqb_neq in Hne. rewrite Hne.
  rewrite run_bind, run_pure, Hd. cbv beta iota.
  rewrite run_bind, (run_time_sleep _ _ Hs). cbv beta iota.
  rewrite run_ret. cbn [issued trace]. rewrite <- app_assoc. reflexivity.
Qed.

Lemma run_for_in {A} (x : Z) (rest : list Z) (body : Z -> py http_world (flow A)) w :
  run (for_in (x :: rest) body) w =
  match run (body x) w with
  | (inr Next, w') => run (for_in rest body) w'
  | (inr Break, w') => (inr None, w')
  | (inr (Return a), w') => (inr (Some a), w')
  | (inl e, w') => (inl e, w')
  end.
Proof.
  cbn [for_in]. rewrite run_bind.
  destruct (run (body x) w) as [[e | [ | | a]] w']; reflexivity.
Qed.

Lemma range_from_nonempty lo hi :
  lo < hi -> range lo hi = lo :: range (lo + 1) hi.
Proof.
  intros H. unfold range.
  replace (Z.to_nat (hi - lo)) with (S (Z.to_nat (hi - (lo + 1)))) by lia.
  reflexivity.
Qed.

Lemma range_empty lo hi : hi <= lo -> range lo hi = [].
Proof.
  intros H. unfold range. replace (Z.to_nat (hi - lo)) with O by lia. reflexivity.
Qed.

(** The turns from [attempt] on, when every request they issue fails
    with a connection error or a timeout and every pause is accepted. *)
Lemma all_turns_fail retries backoff_seconds :
  forall (left : nat) (attempt : Z) (w : http_world),
    1 <= attempt ->
    attempt + Z.of_nat left = retries + 1 ->
    (forall i, (i < left)%nat ->
               exists e, network (issued w + i)%nat url timeout = inl e
                         /\ retryable e = true) ->
    (forall a, attempt <= a < retries ->
               exists secs, backoff_delay backoff_seconds a = inr secs
                            /\ sleep_refusal secs = None) ->
    exists w',
      run (for_in (range attempt (retries + 1))
               (attempt_body network url retries backoff_seconds timeout)) w
      = (inr None, w')
      /\ issued w' = (issued w + left)%nat.
Proof.
  induction left as [| left IH]; intros attempt w Hlo Hlen Hnet Hsleep.
  - rewrite range_empty by lia. exists w. split; [reflexivity | lia].
  - rewrite range_from_nonempty by lia. rewrite run_for_in.
    destruct (Hnet O ltac:(lia)) as (e & He & Hr).
    rewrite Nat.add_0_r in He.
    destruct (Z.eq_dec attempt retries) as [-> | Hne].
    + rewrite (attempt_failed_last _ _ _ _ He Hr).
      eexists; split; [reflexivity |]. cbn [issued]. lia.
    + destruct (Hsleep attempt ltac:(lia)) as (secs & Hd & Hs).
      rewrite (attempt_failed_early _ _ _ _ _ _ He Hr Hne Hd Hs).
      destruct (IH (attempt + 1)
                   (mk_world (S (issued w)) (trace w ++ [Get url timeout] ++ [Sleep secs])))
        as (w' & Hrun & Hiss).
      * lia.
      * lia.
      * intros i Hi. cbn [issued].
        replace (S (issued w) + i)%nat with (issued w + S i)%nat by lia.
        apply Hnet. lia.
      * intros a Ha. apply Hsleep. lia.
      * exists w'. split; [exact Hrun |]. rewrite Hiss. cbn [issued]. lia.
Qed.
End Client.

(** C1.  With [retries=3] and [backoff_seconds=1.0], when the first two
    requests fail with a connection error (or a timeout) and the third
    one is answered, the client pauses 1.0 s after the first failure and
    2.0 s after the second, and returns the third answer at once, whatever
    its status code: nothing is done after the third request. *)
Theorem two_failures_then_answer :
  forall network url timeout w e1 e2 resp,
    network (issued w) url timeout = inl e1 ->
    retryable e1 = true ->
    network (S (issued w)) url timeout = inl e2 ->
    retryable e2 = true ->
    network (S (S (issued w))) url timeout = inr resp ->
    run (get_with_retries network url 3 (PyFloat.decimal 10 1) timeout) w =
    (inr (Some resp),
     mk_world (3 + issued w)
       (trace w ++ [Get url timeout; Sleep (PyFloat.decimal 10 1);
                    Get url timeout; Sleep (PyFloat.decimal 20 1);
                    Get url timeout])).
Proof.
  intros network url timeout w e1 e2 resp H1 R1 H2 R2 H3.
  rewrite get_with_retries_unfold, run_bind.
  change (range 1 (3 + 1)) with [1; 2; 3].
  rewrite run_for_in.
  erewrite (attempt_failed_early network url timeout 3 (PyFloat.decimal 10 1) 1 e1
              (PyFloat.decimal 10 1));
    [ | exact H1 | exact R1 | lia | reflexivity | reflexivity ].
  rewrite run_for_in.
  erewrite (attempt_failed_early network url timeout 3 (PyFloat.decimal 10 1) 2 e2
              (PyFloat.decimal 20 1));
    [ | exact H2 | exact R2 | lia | reflexivity | reflexivity ].
  rewrite run_for_in.
  erewrite (attempt_answered network url timeout 3 (PyFloat.decimal 10 1) 3 resp);
    [ | exact H3 ].
  rewrite run_ret. cbn [issued trace]. rewrite <- !app_assoc. reflexivity.
Qed.

Lemma two_failures_then_answer_witness :
  run (get_with_retries flaky_network (u "http://example.org") 3
         (PyFloat.decimal 10 1) default_timeout) (mk_world 0 [])
  = (inr (Some (mk_response 503 (u "unavailable"))),
     mk_world 3
       [Get (u "http://example.org") default_timeout; Sleep (PyFloat.decimal 10 1);
        Get (u "http://example.org") default_timeout; Sleep (PyFloat.decimal 20 1);
        Get (u "http://example.org") default_timeout]).
Proof.
  apply (two_failures_then_answer flaky_network (u "http://example.org")
           default_timeout (mk_world 0 [])
           (mk_exc ConnectionError (u "connection refused"))
           (mk_exc ConnectionError (u "connection reset"))
           (mk_response 503 (u "unavailable")));
    reflexivity.
Defined.

(** C2.  When each of the [retries] requests fails with a connection
    error or a timeout (and [time.sleep] accepts the pauses in between),
    the call raises nothing and returns no response: it returns [None],
    after exactly [retries] requests.  With [retries=2] this is the case of
    two failures. *)
Theorem exhausted_retries_return_none :
  forall network url retries backoff_seconds timeout w,
    (forall i, (i < Z.to_nat retries)%nat ->
               exists e, network (issued w + i)%nat url timeout = inl e
                         /\ retryable e = true) ->
    (forall attempt, 1 <= attempt < retries ->
                     exists secs, backoff_delay backoff_seconds attempt = inr secs
                                  /\ sleep_refusal secs = None) ->
    exists w',
      run (get_with_retries network url retries backoff_seconds timeout) w = (inr None, w')
      /\ issued w' = (issued w + Z.to_nat retries)%nat.
Proof.
  intros network url retries backoff_seconds timeout w Hnet Hsleep.
  rewrite get_with_retries_unfold, run_bind.
  destruct (Z_le_gt_dec retries 0) as [Hle | Hgt].
  - rewrite range_empty by lia. exists w. split; [reflexivity |].
    replace (Z.to_nat retries) with O by lia. lia.
  - destruct (all_turns_fail network url timeout retries backoff_seconds
                (Z.to_nat retries) 1 w) as (w' & Hrun & Hiss);
      [ lia | lia | exact Hnet | exact Hsleep | ].
    exists w'. rewrite Hrun. split; [reflexivity | exact Hiss].
Qed.

Lemma exhausted_retries_return_none_witness :
  exists w',
    run (get_with_retries dead_network (u "http://example.org") 2
           default_backoff_seconds default_timeout) (mk_world 0 [])
    = (inr None, w')
    /\ issued w' = 2%nat.
Proof.
  apply (exhausted_retries_return_none dead_network (u "http://example.org") 2
           default_backoff_seconds default_timeout (mk_world 0 [])).
  - intros i _. exists (mk_exc ReadTimeout (u "read timed out")). split; reflexivity.
  - intros attempt H. assert (attempt = 1) as -> by lia.
    exists (PyFloat.decimal 10 1). split; reflexivity.
Defined.

(** C10.  With [retries <= 0] the loop has no turn: no request is issued,
    nothing else is done, and the call returns [None]. *)
Theorem no_attempt_without_retries :
  forall network url retries backoff_seconds timeout w,
    retries <= 0 ->
    run (get_with_retries network url retries backoff_seconds timeout) w = (inr None, w).
Proof.
  intros network url retries backoff_seconds timeout w H.
  rewrite get_with_retries_unfold, run_bind, range_empty by lia.
  reflexivity.
Qed.

Lemma no_attempt_without_retries_witness :
  run (get_with_retries flaky_network (u "http://example.org") (-1)
         default_backoff_seconds default_timeout) (mk_world 0 [])
  = (inr None, mk_world 0 []).
Proof.
  apply (no_attempt_without_retries flaky_network (u "http://example.org") (-1)
           default_backoff_seconds default_timeout (mk_world 0 [])).
  lia.
Defined.

End HttpClientFacts.

(** ** The tools *)

Module AgentFacts.
Import PyValue Agent PyStrFacts RunFacts DataModel Scenarios.

Lemma contains_middle (pre x post : pystr) : contains x (pre ++ x ++ post).
Proof. exists pre, post. reflexivity. Qed.

Lemma contains_start (x post : pystr) : contains x (x ++ post).
Proof. exists [], post. reflexivity. Qed.

Lemma contains_end (pre x : pystr) : contains x (pre ++ x).
Proof. exists pre, []. rewrite app_nil_r. reflexivity. Qed.

Lemma contains_app_l (x a b : pystr) : contains x a -> contains x (a ++ b).
Proof.
  intros (pre & post & ->). exists pre, (post ++ b).
  rewrite <- !app_assoc. reflexivity.
Qed.

Lemma contains_app_r (x a b : pystr) : contains x b -> contains x (a ++ b).
Proof.
  intros (pre & post & ->). exists (a ++ pre), post.
  rewrite <- !app_assoc. reflexivity.
Qed.

Section Tools.
Variable isprintable : N -> bool.
Variable get_weather_by_city : pystr -> value.
Variable get_daily_forecast_by_city : pystr -> value.

Lemma run_call_weather_by_city city w :
  run (call_weather_by_city get_weather_by_city city) w =
  (inr (get_weather_by_city city), w ++ [WeatherByCity city]).
Proof. reflexivity. Qed.

Lemma run_call_daily_forecast_by_city city w :
  run (call_daily_forecast_by_city get_daily_forecast_by_city city) w =
  (inr (get_daily_forecast_by_city city), w ++ [DailyForecastByCity city]).
Proof. reflexivity. Qed.

(** The current-weather tool, by what the provider answered. *)
Lemma run_get_weather_for_location city w :
  run (get_weather_for_location isprintable get_weather_by_city city) w =
  (let weather := get_weather_by_city (city_norm city) in
   if is_dict_with weather (u "error") then
     match getitem_str isprintable weather (u "error") with
     | inr error =>
         inr (u "Не удалось получить погоду для " ++ city_norm city ++ u ": "
                ++ py_str isprintable error)
     | inl e => inl e
     end
   else
     match weather_sentence isprintable weather with
     | inr s => inr s
     | inl e =>
         inr (u "Неожиданный формат ответа погоды для " ++ city_norm city ++ u ": "
                ++ exc_text e)
     end,
   w ++ [WeatherByCity (city_norm city)]).
Proof.
  unfold get_weather_for_location.
  rewrite run_bind, run_call_weather_by_city. cbv beta iota zeta.
  destruct (is_dict_with _ _).
  - rewrite run_bind, run_pure.
    destruct (getitem_str _ _ _); reflexivity.
  - rewrite run_catch, run_pure.
    destruct (weather_sentence _ _); reflexivity.
Qed.

(** The forecast tool, once the offset is not negative, by what the
    provider answered. *)
Lemma run_get_forecast_for_location city day_offset w :
  0 <= day_offset ->
  run (get_forecast_for_location isprintable get_daily_forecast_by_city city day_offset) w =
  (let daily_data := get_daily_forecast_by_city (city_norm city) in
   if is_dict_with daily_data (u "error") then
     match getitem_str isprintable daily_data (u "error") with
     | inr error =>
         inr (u "Не удалось получить ежедневный прогноз для " ++ city_norm city
                ++ u ": " ++ py_str isprintable error)
     | inl e => inl e
     end
   else
     match forecast_sentence isprintable (city_norm city) day_offset daily_data with
     | inr s => inr s
     | inl e =>
         inr (u "Не удалось обработать данные ежедневного прогноза для "
                ++ city_norm city ++ u ": " ++ exc_text e)
     end,
   w ++ [DailyForecastByCity (city_norm city)]).
Proof.
  intros H. unfold get_forecast_for_location.
  apply Z.ltb_ge in H. rewrite H.
  rewrite run_bind, run_call_daily_forecast_by_city. cbv beta iota zeta.
  destruct (is_dict_with _ _).
  - rewrite run_bind, run_pure.
    destruct (getitem_str _ _ _); reflexivity.
  - rewrite run_catch, run_pure.
    destruct (forecast_sentence _ _ _ _); reflexivity.
Qed.

Lemma is_dict_with_lookup entries k :
  is_dict_with (VDict entries) k
  = match dict_lookup entries k with Some _ => true | None => false end.
Proof. reflexivity. Qed.

(** A [dict] that has a key gives its entry. *)
Lemma getitem_of_dict_with v k :
  is_dict_with v k = true -> exists x, getitem_str isprintable v k = inr x.
Proof.
  destruct v; try discriminate. cbn.
  destruct (dict_lookup entries k); [eauto | discriminate].
Qed.
End Tools.

Lemma raising_bind_inr {A B} (a : A) (f : A -> raising B) : bind (inr a : raising A) f = f a.
Proof. reflexivity. Qed.

Lemma raising_bind_ret {A B} (a : A) (f : A -> raising B) : bind (ret a : raising A) f = f a.
Proof. reflexivity. Qed.

Lemma join_head (sep p : pystr) (rest : list pystr) :
  exists tail, join sep (p :: rest) = p ++ tail.
Proof.
  destruct rest as [| q rest].
  - exists []. cbn. rewrite app_nil_r. reflexivity.
  - eexists. cbn [join]. reflexivity.
Qed.

Lemma format_1f_number v :
  is_number v = true -> exists s, format_1f v = inr s.
Proof.
  destruct v; try discriminate; cbn [is_number format_1f].
  - unfold float_of_int. destruct (PyFloat.of_int z); [| discriminate].
    intros _. eexists. reflexivity.
  - intros _. eexists. reflexivity.
Qed.

Lemma getitem_int_in_range items i item :
  0 <= i -> nth_error items (Z.to_nat i) = Some item ->
  getitem_int (VList items) i = inr item
  /\ (Z.of_nat (List.length items) <=? i) = false
  /\ truthy (VList items) = true.
Proof.
  intros Hi Hn.
  assert (Z.to_nat i < List.length items)%nat as Hlt
      by (apply nth_error_Some; congruence).
  repeat split.
  - cbn [getitem_int]. unfold index_in.
    replace (i <? 0) with false by (symmetry; apply Z.ltb_ge; lia).
    replace (0 <=? i) with true by (symmetry; apply Z.leb_le; lia).
    replace (i <? Z.of_nat (List.length items)) with true
      by (symmetry; apply Z.ltb_lt; lia).
    cbn [andb]. rewrite Hn. reflexivity.
  - apply Z.leb_gt. lia.
  - cbn. destruct items; [cbn in Hlt; lia | reflexivity].
Qed.

Lemma method_get_dict fields k default :
  method_get (VDict fields) k default
  = inr (match dict_lookup fields k with Some v => v | None => default end).
Proof. cbn. destruct (dict_lookup fields k); reflexivity. Qed.

Lemma field_ok_get (p : value -> bool) fields k :
  field_ok p fields k = true -> p VNone = true ->
  p (match dict_lookup fields k with Some v => v | None => VNone end) = true.
Proof. unfold field_ok. destruct (dict_lookup fields k); auto. Qed.

Lemma temp_block_cases temp :
  temp_block_ok temp = true ->
  exists tf,
    value_or temp (VDict []) = VDict tf
    /\ field_ok optional_number tf (u "min") = true
    /\ field_ok optional_number tf (u "max") = true
    /\ field_ok optional_number tf (u "day") = true.
Proof.
  destruct temp as [ | | | | | | tf]; try discriminate.
  - intros _. exists []. repeat split.
  - intros H. cbn [temp_block_ok] in H.
    apply andb_prop in H as [H Hday]. apply andb_prop in H as [Hmin Hmax].
    destruct tf as [| kv tf].
    + exists []. repeat split.
    + exists (kv :: tf). repeat split; assumption.
Qed.

Lemma description_found conditions :
  conditions_ok conditions = true ->
  exists description,
    (if truthy (value_or conditions (VList []))
     then
       first <- getitem_int (value_or conditions (VList [])) 0 ;;
       method_get first (u "description") VNone
     else ret (VStr (u "нет описания")))
    = inr description.
Proof.
  destruct conditions as [ | | | | | [| first rest] | ]; try discriminate.
  - intros _. eexists. reflexivity.
  - intros _. eexists. reflexivity.
  - destruct first; try discriminate. intros _.
    exists (match dict_lookup entries (u "description") with
            | Some v => v
            | None => VNone
            end).
    rewrite <- method_get_dict. reflexivity.
Qed.

Lemma format_1f_present v :
  optional_number v = true -> is_none v = false -> exists s, format_1f v = inr s.
Proof.
  unfold optional_number. intros H Hn. rewrite Hn in H. apply format_1f_number, H.
Qed.

(** For a well-formed entry the [try] block of the forecast tool ends in
    the forecast sentence, which opens with city and day label. *)
Lemma forecast_sentence_labelled isprintable city_n day_offset entries items item :
  dict_lookup entries (u "daily") = Some (VList items) ->
  0 <= day_offset -> nth_error items (Z.to_nat day_offset) = Some item ->
  daily_entry_ok item = true ->
  exists rest, forecast_sentence isprintable city_n day_offset (VDict entries)
     = inr (u "Прогноз для " ++ city_n ++ u " на " ++ day_label day_offset ++ u ": " ++ rest).
Proof.
  intros Hdaily Hi Hn Hok.
  destruct (getitem_int_in_range _ _ _ Hi Hn) as (Hget & Hlen & Htruthy).
  unfold forecast_sentence. rewrite method_get_dict, Hdaily.
  rewrite raising_bind_inr, Htruthy. cbn [negb].
  cbn [py_len]. rewrite raising_bind_ret, Hlen, Hget, raising_bind_inr.
  destruct item as [ | | | | | | fields]; try discriminate.
  cbn [daily_entry_ok] in Hok. apply andb_prop in Hok as [Htemp Hcond].
  rewrite method_get_dict, raising_bind_inr.
  destruct (temp_block_cases _ (field_ok_get _ _ _ Htemp eq_refl))
    as (tf & -> & Hmin & Hmax & Hday).
  do 3 rewrite method_get_dict, raising_bind_inr.
  apply field_ok_get in Hmin, Hmax, Hday; try reflexivity.
  set (temp_min := match dict_lookup tf (u "min") with Some v => v | None => VNone end) in *.
  set (temp_max := match dict_lookup tf (u "max") with Some v => v | None => VNone end) in *.
  set (temp_day := match dict_lookup tf (u "day") with Some v => v | None => VNone end) in *.
  rewrite method_get_dict, raising_bind_inr.
  destruct (description_found _ (field_ok_get _ _ _ Hcond eq_refl)) as (description & ->).
  rewrite raising_bind_inr.
  do 2 rewrite method_get_dict, raising_bind_inr.
  set (first := u "Прогноз для " ++ city_n ++ u " на " ++ day_label day_offset
                  ++ u ": " ++ py_str isprintable description).
  assert (exists more,
             (if negb (is_none temp_min) && negb (is_none temp_max)
              then
                lo <- format_1f temp_min ;;
                hi <- format_1f temp_max ;;
                ret ([first] ++ [u "температура от " ++ lo ++ u "°C до " ++ hi ++ u "°C"])
              else
                if negb (is_none temp_day)
                then
                  around <- format_1f temp_day ;;
                  ret ([first] ++ [u "температура около " ++ around ++ u "°C"])
                else ret [first])
             = inr (first :: more)) as (more & ->).
  { destruct (is_none temp_min) eqn:Emin; destruct (is_none temp_max) eqn:Emax;
      cbn [negb andb].
    4: { destruct (format_1f_present _ Hmin Emin) as (lo & ->).
         destruct (format_1f_present _ Hmax Emax) as (hi & ->).
         eexists. reflexivity. }
    all: destruct (is_none temp_day) eqn:Eday; cbn [negb];
      [ eexists; reflexivity
      | destruct (format_1f_present _ Hday Eday) as (around & ->);
        eexists; reflexivity ]. }
  rewrite raising_bind_inr.
  match goal with
  | |- context [join ?sep ?parts] =>
      assert (exists tail, join sep parts = first ++ tail) as (tail & ->)
  end.
  { destruct (is_none _); destruct (is_none _); cbn [app]; apply join_head. }
  exists (py_str isprintable description ++ tail
            ++ u " (по данным OpenWeatherMap One Call).").
  subst first. cbn [ret Monad_raising Monad_either].
  rewrite <- !app_assoc. reflexivity.
Qed.

(** C3.  When the provider answers with the Moscow record, the
    current-weather tool returns exactly the sentence below: the
    temperature with one decimal, then humidity and wind, which the record
    has, and a full stop. *)
Theorem moscow_weather_sentence :
  forall isprintable get_weather_by_city city w,
    get_weather_by_city (city_norm city) = moscow_record ->
    run (get_weather_for_location isprintable get_weather_by_city city) w =
    (inr (u "Текущая погода в Москва: 5.6°C, облачно, влажность 80%, ветер 3.2 м/с."),
     w ++ [WeatherByCity (city_norm city)]).
Proof.
  intros isprintable provider city w H.
  rewrite run_get_weather_for_location, H.
  vm_compute. reflexivity.
Qed.

Lemma moscow_weather_sentence_witness :
  run (get_weather_for_location all_printable (fun _ => moscow_record) (u "Москва")) [] =
  (inr (u "Текущая погода в Москва: 5.6°C, облачно, влажность 80%, ветер 3.2 м/с."),
   [WeatherByCity (u "Москва")]).
Proof.
  apply (moscow_weather_sentence all_printable (fun _ => moscow_record) (u "Москва") []).
  reflexivity.
Defined.

(** C4.  Whatever the provider answers -- a failure record, a proper
    record or anything else -- the current-weather tool returns a string
    and raises nothing; and when the answer is a failure record, the string
    contains the city that was asked for and the text of the failure
    (["Париж"] and ["timeout"] for the failure [{error: "timeout"}] of
    Paris). *)
Theorem weather_tool_returns_text :
  forall isprintable get_weather_by_city city w,
  exists s,
    run (get_weather_for_location isprintable get_weather_by_city city) w =
    (inr s, w ++ [WeatherByCity (city_norm city)])
    /\ (forall text,
          get_weather_by_city (city_norm city) = error_record text ->
          contains (city_norm city) s /\ contains text s).
Proof.
  intros isprintable provider city w.
  rewrite run_get_weather_for_location. cbv zeta.
  destruct (is_dict_with (provider (city_norm city)) (u "error")) eqn:Herr.
  - destruct (getitem_of_dict_with isprintable _ _ Herr) as (x & Hx). rewrite Hx.
    eexists; split; [reflexivity |].
    intros text Ht. rewrite Ht in Hx. cbn in Hx. injection Hx as <-.
    split.
    + apply contains_app_r, contains_start.
    + apply contains_app_r, contains_app_r, contains_end.
  - destruct (weather_sentence isprintable (provider (city_norm city))) as [e | s];
      (eexists; split; [reflexivity |]);
      intros text Ht; rewrite Ht in Herr; discriminate Herr.
Qed.

Lemma weather_tool_returns_text_witness :
  exists s,
    run (get_weather_for_location all_printable (fun _ => error_record (u "timeout"))
           (u "Париж")) [] = (inr s, [WeatherByCity (u "Париж")])
    /\ contains (u "Париж") s /\ contains (u "timeout") s.
Proof.
  destruct (weather_tool_returns_text all_printable
              (fun _ => error_record (u "timeout")) (u "Париж") [])
    as (s & Hrun & Hin).
  exists s. split; [exact Hrun | exact (Hin (u "timeout") eq_refl)].
Defined.

(** C5, as the code has it.  The provider is asked once, for the trimmed
    city when trimming leaves something, and for the placeholder when it
    leaves nothing: for the empty string and for a string of white space
    only.  The tool treats a city and the same city trimmed alike. *)
Theorem weather_tool_queries_normalized_city :
  forall isprintable get_weather_by_city city w,
    snd (run (get_weather_for_location isprintable get_weather_by_city city) w)
    = w ++ [WeatherByCity (city_norm city)]
    /\ (strip city <> [] -> city_norm city = strip city)
    /\ (strip city = [] -> city_norm city = u "неизвестный город")
    /\ city_norm [] = u "неизвестный город"
    /\ run (get_weather_for_location isprintable get_weather_by_city city) w
       = run (get_weather_for_location isprintable get_weather_by_city (strip city)) w.
Proof.
  intros isprintable provider city w.
  rewrite !run_get_weather_for_location. cbn [snd].
  split; [reflexivity |].
  unfold city_norm, str_or. cbn [truthy].
  repeat split.
  - intros H. destruct (strip city); [contradiction | reflexivity].
  - intros ->. reflexivity.
  - rewrite strip_idempotent. reflexivity.
Qed.

(** Against C5 as it is worded, a city of one space: it has white space to
    trim, and the provider is asked for the placeholder, not for the
    trimmed (empty) string. *)
Lemma blank_city_queries_placeholder :
  strip (u " ") <> u " "
  /\ snd (run (get_weather_for_location all_printable (fun _ => VNone) (u " ")) [])
     = [WeatherByCity (u "неизвестный город")]
  /\ snd (run (get_weather_for_location all_printable (fun _ => VNone) (u " ")) [])
     <> [WeatherByCity (strip (u " "))].
Proof.
  repeat split; vm_compute; discriminate.
Qed.

(** C6.  A negative [day_offset] is turned down with the fixed message
    before anything is asked of the provider: the world is left as it
    was. *)
Theorem negative_offset_rejected :
  forall isprintable get_daily_forecast_by_city city day_offset w,
    day_offset < 0 ->
    run (get_forecast_for_location isprintable get_daily_forecast_by_city city day_offset) w
    = (inr (u "day_offset не может быть отрицательным."), w).
Proof.
  intros isprintable provider city day_offset w H.
  unfold get_forecast_for_location.
  apply Z.ltb_lt in H. rewrite H. reflexivity.
Qed.

Lemma negative_offset_rejected_witness :
  run (get_forecast_for_location all_printable (fun _ => forecast_record 8)
         (u "Омск") (-1)) []
  = (inr (u "day_offset не может быть отрицательным."), []).
Proof.
  apply (negative_offset_rejected all_printable (fun _ => forecast_record 8)
           (u "Омск") (-1) []).
  lia.
Defined.

(** C7, as the code has it.  When the daily list is not empty and
    [day_offset] is at least its length, the forecast tool does not index
    the list: it returns the message that states the length of the list
    and the offset that is out of its range.  (An empty list is reported
    as an unexpected format instead.) *)
Theorem offset_beyond_forecast_reported :
  forall isprintable get_daily_forecast_by_city city day_offset entries items w,
    get_daily_forecast_by_city (city_norm city) = VDict entries ->
    dict_lookup entries (u "error") = None ->
    dict_lookup entries (u "daily") = Some (VList items) ->
    items <> [] ->
    Z.of_nat (List.length items) <= day_offset ->
    run (get_forecast_for_location isprintable get_daily_forecast_by_city city day_offset) w
    = (inr (u "OpenWeatherMap вернул прогноз только на "
              ++ str_int (Z.of_nat (List.length items)) ++ u " дней. "
              ++ u "day_offset=" ++ str_int day_offset
              ++ u " выйти за доступный диапазон."),
       w ++ [DailyForecastByCity (city_norm city)]).
Proof.
  intros isprintable provider city day_offset entries items w Hd Herr Hdaily Hne Hlen.
  rewrite run_get_forecast_for_location by lia.
  rewrite Hd. cbv zeta. rewrite is_dict_with_lookup, Herr.
  unfold forecast_sentence. cbn [method_get]. rewrite Hdaily.
  cbn [bind ret Monad_raising Monad_either].
  destruct items as [| item items]; [contradiction |].
  cbn [truthy List.length Nat.eqb negb py_len].
  cbn [bind ret Monad_raising Monad_either].
  apply Z.leb_le in Hlen. cbn [List.length] in Hlen. rewrite Hlen.
  reflexivity.
Qed.

Lemma offset_beyond_forecast_reported_witness :
  run (get_forecast_for_location all_printable (fun _ => forecast_record 8)
         (u "Омск") 10) []
  = (inr (u "OpenWeatherMap вернул прогноз только на 8 дней. day_offset=10 выйти за доступный диапазон."),
     [DailyForecastByCity (u "Омск")]).
Proof.
  rewrite (offset_beyond_forecast_reported all_printable (fun _ => forecast_record 8)
             (u "Омск") 10 [(u "daily", VList (repeat snowy_day 8))]
             (repeat snowy_day 8) []).
  - vm_compute. reflexivity.
  - reflexivity.
  - reflexivity.
  - reflexivity.
  - discriminate.
  - vm_compute. discriminate.
Defined.

(** Against C7 as it is worded, an empty daily list: offset 0 is at least its
    length, and the tool reports an unexpected format, not the length of
    the list and the offset out of its range. *)
Lemma empty_forecast_is_unexpected_format :
  fst (run (get_forecast_for_location all_printable (fun _ => empty_forecast)
              (u "Омск") 0) [])
  = inr (u "Неожиданный формат ежедневного прогноза для Омск.")
  /\ fst (run (get_forecast_for_location all_printable (fun _ => empty_forecast)
                 (u "Омск") 0) [])
     <> inr (u "OpenWeatherMap вернул прогноз только на 0 дней. day_offset=0 выйти за доступный диапазон.").
Proof.
  split; vm_compute; [reflexivity | discriminate].
Qed.

(** C8.  On a daily list that has an entry at a [day_offset] that is not
    negative, the forecast sentence names the day after the city:
    ["сегодня"] for offset 0, ["завтра"] for offset 1, and ["через N дней"]
    with the offset for [N] from offset 2 on.  The entry is a record of the
    shape the provider delivers. *)
Theorem forecast_day_label :
  forall isprintable get_daily_forecast_by_city city day_offset entries items item w,
    get_daily_forecast_by_city (city_norm city) = VDict entries ->
    dict_lookup entries (u "error") = None ->
    dict_lookup entries (u "daily") = Some (VList items) ->
    0 <= day_offset ->
    nth_error items (Z.to_nat day_offset) = Some item ->
    daily_entry_ok item = true ->
    exists label rest,
      run (get_forecast_for_location isprintable get_daily_forecast_by_city city
             day_offset) w
      = (inr (u "Прогноз для " ++ city_norm city ++ u " на " ++ label ++ u ": " ++ rest),
         w ++ [DailyForecastByCity (city_norm city)])
      /\ (day_offset = 0 -> label = u "сегодня")
      /\ (day_offset = 1 -> label = u "завтра")
      /\ (2 <= day_offset -> label = u "через " ++ str_int day_offset ++ u " дней").
Proof.
  intros isprintable provider city day_offset entries items item w
         Hd Herr Hdaily Hi Hn Hok.
  destruct (forecast_sentence_labelled isprintable (city_norm city) day_offset
              entries items item Hdaily Hi Hn Hok) as (rest & Hs).
  exists (day_label day_offset), rest.
  split.
  - rewrite run_get_forecast_for_location by exact Hi.
    rewrite Hd. cbv zeta. rewrite is_dict_with_lookup, Herr, Hs. reflexivity.
  - unfold day_label. repeat split.
    + intros ->. reflexivity.
    + intros ->. reflexivity.
    + intros H.
      replace (day_offset =? 0) with false by (symmetry; apply Z.eqb_neq; lia).
      replace (day_offset =? 1) with false by (symmetry; apply Z.eqb_neq; lia).
      reflexivity.
Qed.

Lemma forecast_day_label_witness :
  (exists rest,
      fst (run (get_forecast_for_location all_printable (fun _ => forecast_record 8)
                  (u "Омск") 0) [])
      = inr (u "Прогноз для Омск на сегодня: " ++ rest))
  /\ (exists rest,
        fst (run (get_forecast_for_location all_printable (fun _ => forecast_record 8)
                    (u "Омск") 1) [])
        = inr (u "Прогноз для Омск на завтра: " ++ rest))
  /\ (exists rest,
        fst (run (get_forecast_for_location all_printable (fun _ => forecast_record 8)
                    (u "Омск") 5) [])
        = inr (u "Прогноз для Омск на через 5 дней: " ++ rest)).
Proof.
  repeat split.
  - destruct (forecast_day_label all_printable (fun _ => forecast_record 8) (u "Омск") 0
                [(u "daily", VList (repeat snowy_day 8))] (repeat snowy_day 8)
                snowy_day [] eq_refl eq_refl eq_refl ltac:(lia) eq_refl eq_refl)
      as (label & rest & Hrun & H0 & _ & _).
    exists rest. rewrite Hrun, (H0 eq_refl). vm_compute. reflexivity.
  - destruct (forecast_day_label all_printable (fun _ => forecast_record 8) (u "Омск") 1
                [(u "daily", VList (repeat snowy_day 8))] (repeat snowy_day 8)
                snowy_day [] eq_refl eq_refl eq_refl ltac:(lia) eq_refl eq_refl)
      as (label & rest & Hrun & _ & H1 & _).
    exists rest. rewrite Hrun, (H1 eq_refl). vm_compute. reflexivity.
  - destruct (forecast_day_label all_printable (fun _ => forecast_record 8) (u "Омск") 5
                [(u "daily", VList (repeat snowy_day 8))] (repeat snowy_day 8)
                snowy_day [] eq_refl eq_refl eq_refl ltac:(lia) eq_refl eq_refl)
      as (label & rest & Hrun & _ & _ & H5).
    exists rest. rewrite Hrun, (H5 ltac:(lia)). vm_compute. reflexivity.
Defined.

(** C9.  The answer of the current-time tool is a function of the clock
    reading alone: two calls that read the same clock return the same
    string and leave the same trace, whatever their [timezone] arguments
    and whatever the contexts of their runtimes, [default_timezone]
    included. *)
Theorem current_time_ignores_timezone :
  forall host_clock runtime1 runtime2 timezone1 timezone2 w,
    run (get_current_time host_clock runtime1 timezone1) w
    = run (get_current_time host_clock runtime2 timezone2) w
    /\ run (get_current_time host_clock runtime1 timezone1) w
       = (inr (u "Локальное системное время: " ++ strftime_dmy_hms host_clock
                 ++ u " (ISO: " ++ isoformat (replace_microsecond host_clock 0) ++ u ")"),
          w ++ [Now]).
Proof.
  intros. split; reflexivity.
Qed.

End AgentFacts.

(** ** The retrying client, in general *)

Module HttpClientMore.
Import PyValue HttpClient HttpTrace RunFacts Scenarios HttpClientFacts.

Section Loop.
Variable network : nat -> pystr -> PyFloat.float -> raising response.
Variables (url : pystr) (timeout : PyFloat.float).
Variables (retries : Z) (backoff_seconds : PyFloat.float).

Let body := attempt_body network url retries backoff_seconds timeout.
Lemma turn_cases attempt w :
  turn network url timeout retries backoff_seconds attempt w
       (fst (run (body attempt) w)) (snd (run (body attempt) w)).
Proof.
  unfold body, attempt_body.
  rewrite run_catch, run_bind, run_requests_get.
  destruct (network (issued w) url timeout) as [e | resp] eqn:Hnet; cbv beta iota.
  - destruct (retryable e) eqn:Hr.
    + destruct (Z.eqb_spec attempt retries) as [Heq | Hne].
      * rewrite run_ret. cbn [fst snd]. eapply turn_last_failure; eassumption.
      * rewrite run_bind, run_pure.
        destruct (backoff_delay backoff_seconds attempt) as [e' | secs] eqn:Hd;
          cbv beta iota.
        -- cbn [fst snd]. eapply turn_no_pause; eassumption.
        -- rewrite run_bind. unfold time_sleep.
           destruct (sleep_refusal secs) as [e' |] eqn:Hs.
           ++ rewrite run_raise. cbn [fst snd].
              eapply turn_pause_refused; eassumption.
           ++ rewrite run_bind, run_modify. cbv beta iota. rewrite !run_ret.
              cbn [fst snd issued trace]. rewrite <- app_assoc.
              eapply turn_paused; eassumption.
    + rewrite run_raise. cbn [fst snd]. eapply turn_other_failure; eassumption.
  - rewrite run_ret. cbn [fst snd]. apply turn_answered. exact Hnet.
Qed.

Lemma run_loop_cons attempt w :
  attempt <= retries ->
  run (for_in (range attempt (retries + 1)) body) w =
  match run (body attempt) w with
  | (inr Next, w') => run (for_in (range (attempt + 1) (retries + 1)) body) w'
  | (inr Break, w') => (inr None, w')
  | (inr (Return a), w') => (inr (Some a), w')
  | (inl e, w') => (inl e, w')
  end.
Proof.
  intros H. rewrite range_from_nonempty by lia. apply run_for_in.
Qed.

Lemma paused_requests_app (pauses more : list PyFloat.float) :
  paused_requests url timeout (pauses ++ more)
  = paused_requests url timeout pauses ++ paused_requests url timeout more.
Proof. unfold paused_requests. apply flat_map_app. Qed.

(** A run of failures, each followed by its pause, leaves the loop where
    it was, some attempts later. *)
Lemma failed_prefix :
  forall (k : nat) (attempt : Z) (w : http_world),
    attempt + Z.of_nat k <= retries ->
    requests_fail network url timeout w k ->
    (forall a, attempt <= a < attempt + Z.of_nat k ->
               backoff_delay backoff_seconds a = inr (pause backoff_seconds a)
               /\ sleep_refusal (pause backoff_seconds a) = None) ->
    run (for_in (range attempt (retries + 1)) body) w =
    run (for_in (range (attempt + Z.of_nat k) (retries + 1)) body)
        (mk_world (issued w + k)
           (trace w ++ paused_requests url timeout
                         (map (pause backoff_seconds)
                              (range attempt (attempt + Z.of_nat k))))).
Proof.
  induction k as [| k IH]; intros attempt w Hle Hfail Hpause.
  - rewrite Z.add_0_r, Nat.add_0_r, (range_empty attempt attempt) by lia.
    cbn [map paused_requests flat_map]. rewrite app_nil_r.
    destruct w; reflexivity.
  - destruct (Hfail O ltac:(lia)) as (e & He & Hr). rewrite Nat.add_0_r in He.
    destruct (Hpause attempt ltac:(lia)) as (Hd & Hs).
    rewrite run_loop_cons by lia. unfold body.
    rewrite (attempt_failed_early network url timeout retries backoff_seconds attempt
               e _ w He Hr ltac:(lia) Hd Hs).
    fold body. rewrite (IH (attempt + 1)).
    + cbn [issued trace].
      rewrite (range_from_nonempty attempt (attempt + Z.of_nat (S k))) by lia.
      cbn [map]. change (pause backoff_seconds attempt :: ?l)
        with ([pause backoff_seconds attempt] ++ l).
      replace (attempt + 1 + Z.of_nat k) with (attempt + Z.of_nat (S k)) by lia.
      replace (S (issued w) + k)%nat with (issued w + S k)%nat by lia.
      rewrite <- !app_assoc. reflexivity.
    + lia.
    + intros i Hi. cbn [issued].
      replace (S (issued w) + i)%nat with (issued w + S i)%nat by lia.
      apply Hfail. lia.
    + intros a Ha. apply Hpause. lia.
Qed.

(** Every run of the loop is a row of paused requests closed by one more
    request, or nothing at all when there is no turn. *)
Lemma loop_shape :
  forall (left : nat) (attempt : Z) (w : http_world),
    attempt + Z.of_nat left = retries + 1 ->
    (left = O /\ run (for_in (range attempt (retries + 1)) body) w = (inr None, w))
    \/ exists pauses,
        (List.length pauses < left)%nat
        /\ snd (run (for_in (range attempt (retries + 1)) body) w)
           = mk_world (issued w + S (List.length pauses))
               (trace w ++ paused_requests url timeout pauses ++ [Get url timeout]).
Proof.
  induction left as [| left IH]; intros attempt w Hlen.
  - left. rewrite range_empty by lia. split; reflexivity.
  - right. rewrite run_loop_cons by lia.
    pose proof (turn_cases attempt w) as Ht.
    destruct (run (body attempt) w) as [r1 w1]. cbn [fst snd] in Ht.
    inversion Ht; subst; try (exists []; split; [cbn; lia |];
      cbn [snd List.length paused_requests flat_map app]; unfold after_get;
      f_equal; lia).
    destruct (IH (attempt + 1)
                 (mk_world (S (issued w)) (trace w ++ [Get url timeout; Sleep secs]))
                 ltac:(lia)) as [[Hzero _] | (pauses & Hp & Hw)].
    + lia.
    + exists (secs :: pauses). split; [cbn; lia |].
      rewrite Hw. cbn [issued trace List.length paused_requests flat_map].
      f_equal; [lia |]. rewrite <- !app_assoc. reflexivity.
Qed.

(** What the loop returns is what the network gave. *)
Lemma loop_sound :
  forall (left : nat) (attempt : Z) (w : http_world),
    attempt + Z.of_nat left = retries + 1 ->
    (forall resp,
        fst (run (for_in (range attempt (retries + 1)) body) w) = inr (Some resp) ->
        exists k,
          (k < left)%nat
          /\ requests_fail network url timeout w k
          /\ network (issued w + k)%nat url timeout = inr resp
          /\ issued (snd (run (for_in (range attempt (retries + 1)) body) w))
             = (issued w + S k)%nat)
    /\ (fst (run (for_in (range attempt (retries + 1)) body) w) = inr None ->
        requests_fail network url timeout w left
        /\ issued (snd (run (for_in (range attempt (retries + 1)) body) w))
           = (issued w + left)%nat).
Proof.
  induction left as [| left IH]; intros attempt w Hlen.
  - rewrite range_empty by lia. split.
    + intros resp H. discriminate H.
    + intros _. split; [intros i Hi; lia | cbn; lia].
  - rewrite run_loop_cons by lia.
    pose proof (turn_cases attempt w) as Ht.
    destruct (run (body attempt) w) as [r1 w1]. cbn [fst snd] in Ht.
    inversion Ht; subst; cbn [fst snd].
    + split; [| discriminate].
      intros resp' Hres. injection Hres as <-. exists O. repeat split.
      * lia.
      * intros i Hi. lia.
      * rewrite Nat.add_0_r. assumption.
      * unfold after_get. cbn. lia.
    + split; discriminate.
    + split; [discriminate |]. intros _.
      assert (left = O) as -> by lia. split.
      * intros i Hi. assert (i = O) as -> by lia. rewrite Nat.add_0_r. eauto.
      * unfold after_get. cbn. lia.
    + split; discriminate.
    + split; discriminate.
    + set (w1 := mk_world (S (issued w)) (trace w ++ [Get url timeout; Sleep secs])).
      destruct (IH (attempt + 1) w1 ltac:(lia)) as [Hsome Hnone].
      assert (Hshift : forall n, requests_fail network url timeout w1 n ->
                                 requests_fail network url timeout w (S n)).
      { intros n Hn i Hi. destruct i as [| i].
        - rewrite Nat.add_0_r. eauto.
        - replace (issued w + S i)%nat with (issued w1 + i)%nat by (cbn; lia).
          apply Hn. lia. }
      split.
      * intros resp' Hres. destruct (Hsome resp' Hres) as (k & Hk & Hf & Hn & Hi).
        exists (S k). repeat split.
        -- lia.
        -- apply Hshift, Hf.
        -- replace (issued w + S k)%nat with (issued w1 + k)%nat by (cbn; lia).
           exact Hn.
        -- rewrite Hi. cbn. lia.
      * intros Hres. destruct (Hnone Hres) as (Hf & Hi). split.
        -- apply Hshift, Hf.
        -- rewrite Hi. cbn. lia.
Qed.

(** The function is its loop: the [return None] after it changes nothing. *)
Lemma run_get_with_retries w :
  run (get_with_retries network url retries backoff_seconds timeout) w
  = run (for_in (range 1 (retries + 1)) body) w.
Proof.
  rewrite get_with_retries_unfold, run_bind. fold body.
  destruct (run (for_in (range 1 (retries + 1)) body) w) as [[e | [resp |]] w'];
    reflexivity.
Qed.

Lemma attempt_other_failure attempt e w :
  network (issued w) url timeout = inl e ->
  retryable e = false ->
  run (body attempt) w = (inl e, after_get url timeout w).
Proof.
  intros H Hr. unfold body, attempt_body.
  rewrite run_catch, run_bind, run_requests_get, H, Hr. reflexivity.
Qed.

Lemma attempt_pause_refused attempt e secs e' w :
  network (issued w) url timeout = inl e ->
  retryable e = true ->
  attempt <> retries ->
  backoff_delay backoff_seconds attempt = inr secs ->
  sleep_refusal secs = Some e' ->
  run (body attempt) w = (inl e', after_get url timeout w).
Proof.
  intros H Hr Hne Hd Hs. unfold body, attempt_body.
  rewrite run_catch, run_bind, run_requests_get, H, Hr.
  apply Z.eqb_neq in Hne. rewrite Hne.
  rewrite run_bind, run_pure, Hd. cbv beta iota.
  rewrite run_bind. unfold time_sleep. rewrite Hs, run_raise. reflexivity.
Qed.

(** The state after [failed] failed attempts with their pauses. *)
Lemma run_after_failures (failed : nat) w :
  Z.of_nat failed < retries ->
  requests_fail network url timeout w failed ->
  pauses_accepted backoff_seconds failed ->
  run (get_with_retries network url retries backoff_seconds timeout) w =
  match run (body (1 + Z.of_nat failed))
            (mk_world (issued w + failed)
               (trace w ++ paused_requests url timeout
                             (linear_pauses backoff_seconds failed))) with
  | (inr Next, w') =>
      run (for_in (range (1 + Z.of_nat failed + 1) (retries + 1)) body) w'
  | (inr Break, w') => (inr None, w')
  | (inr (Return a), w') => (inr (Some a), w')
  | (inl e, w') => (inl e, w')
  end.
Proof.
  intros Hlt Hfail Hpause.
  rewrite run_get_with_retries.
  rewrite (failed_prefix failed 1 w) by
      (try lia; try assumption; intros a Ha; apply Hpause; lia).
  rewrite run_loop_cons by lia. reflexivity.
Qed.
End Loop.

(** X1.  Linear backoff in general: when the first [failed] requests
    fail with a connection error or a timeout, the next one is answered and
    there are attempts enough for it, the client returns that answer after
    [failed + 1] requests, having paused [backoff_seconds * i] after the
    [i]-th failure and not at all after the answer. *)
Theorem answered_after_failures :
  forall network url retries backoff_seconds timeout w (failed : nat) resp,
    Z.of_nat failed < retries ->
    requests_fail network url timeout w failed ->
    network (issued w + failed)%nat url timeout = inr resp ->
    pauses_accepted backoff_seconds failed ->
    run (get_with_retries network url retries backoff_seconds timeout) w
    = (inr (Some resp),
       mk_world (issued w + S failed)
         (trace w ++ paused_requests url timeout (linear_pauses backoff_seconds failed)
                  ++ [Get url timeout])).
Proof.
  intros network url retries backoff_seconds timeout w failed resp Hlt Hfail Hnet Hp.
  rewrite (run_after_failures network url timeout retries backoff_seconds failed w)
    by assumption.
  erewrite attempt_answered by (cbn [issued]; exact Hnet).
  cbn [issued trace]. f_equal. f_equal; [lia |].
  rewrite <- app_assoc. reflexivity.
Qed.

Lemma answered_after_failures_witness :
  run (get_with_retries flaky_network (u "http://example.org") 5
         (PyFloat.decimal 5 1) default_timeout) (mk_world 0 [])
  = (inr (Some (mk_response 503 (u "unavailable"))),
     mk_world 3
       [Get (u "http://example.org") default_timeout; Sleep (PyFloat.decimal 5 1);
        Get (u "http://example.org") default_timeout; Sleep (PyFloat.decimal 10 1);
        Get (u "http://example.org") default_timeout]).
Proof.
  rewrite (answered_after_failures flaky_network (u "http://example.org") 5
             (PyFloat.decimal 5 1) default_timeout (mk_world 0 []) 2
             (mk_response 503 (u "unavailable"))).
  - vm_compute. reflexivity.
  - reflexivity.
  - intros i Hi. destruct i as [| [| i]]; [| | lia];
      (eexists; split; reflexivity).
  - reflexivity.
  - intros a Ha.
    assert (a = 1 \/ a = 2) as [-> | ->] by lia; split; vm_compute; reflexivity.
Defined.

(** X2.  A failure that is neither a connection error nor a timeout is
    not retried: it reaches the caller at once, after the request that
    raised it and without a pause, however many attempts are left. *)
Theorem other_failure_propagates :
  forall network url retries backoff_seconds timeout w (failed : nat) e,
    Z.of_nat failed < retries ->
    requests_fail network url timeout w failed ->
    network (issued w + failed)%nat url timeout = inl e ->
    retryable e = false ->
    pauses_accepted backoff_seconds failed ->
    run (get_with_retries network url retries backoff_seconds timeout) w
    = (inl e,
       mk_world (issued w + S failed)
         (trace w ++ paused_requests url timeout (linear_pauses backoff_seconds failed)
                  ++ [Get url timeout])).
Proof.
  intros network url retries backoff_seconds timeout w failed e Hlt Hfail Hnet Hr Hp.
  rewrite (run_after_failures network url timeout retries backoff_seconds failed w)
    by assumption.
  erewrite attempt_other_failure by (cbn [issued]; eassumption).
  unfold after_get. cbn [issued trace]. f_equal. f_equal; [lia |].
  rewrite <- app_assoc. reflexivity.
Qed.

(** A network that cannot make sense of the address. *)
Lemma other_failure_propagates_witness :
  run (get_with_retries
         (fun _ _ _ => inl (mk_exc InvalidURL (u "no host supplied")))
         (u "http://") 3 default_backoff_seconds default_timeout) (mk_world 0 [])
  = (inl (mk_exc InvalidURL (u "no host supplied")),
     mk_world 1 [Get (u "http://") default_timeout]).
Proof.
  rewrite (other_failure_propagates
             (fun _ _ _ => inl (mk_exc InvalidURL (u "no host supplied")))
             (u "http://") 3 default_backoff_seconds default_timeout (mk_world 0 []) 0
             (mk_exc InvalidURL (u "no host supplied"))).
  - reflexivity.
  - reflexivity.
  - intros i Hi. lia.
  - reflexivity.
  - reflexivity.
  - intros a Ha. lia.
Defined.

(** X3.  A pause that [time.sleep] refuses ends the call with the
    exception of [time.sleep]: the request that failed is the last one,
    and the failure itself is not reported. *)
Theorem refused_pause_propagates :
  forall network url retries backoff_seconds timeout w (failed : nat) secs e,
    Z.of_nat (S failed) < retries ->
    requests_fail network url timeout w (S failed) ->
    pauses_accepted backoff_seconds failed ->
    backoff_delay backoff_seconds (1 + Z.of_nat failed) = inr secs ->
    sleep_refusal secs = Some e ->
    run (get_with_retries network url retries backoff_seconds timeout) w
    = (inl e,
       mk_world (issued w + S failed)
         (trace w ++ paused_requests url timeout (linear_pauses backoff_seconds failed)
                  ++ [Get url timeout])).
Proof.
  intros network url retries backoff_seconds timeout w failed secs e
         Hlt Hfail Hp Hd Hs.
  destruct (Hfail failed ltac:(lia)) as (e0 & He0 & Hr0).
  rewrite (run_after_failures network url timeout retries backoff_seconds failed w);
    [| lia | intros i Hi; apply Hfail; lia | assumption].
  erewrite attempt_pause_refused;
    [| cbn [issued]; exact He0 | exact Hr0 | lia | exact Hd | exact Hs].
  unfold after_get. cbn [issued trace]. f_equal. f_equal; [lia |].
  rewrite <- app_assoc. reflexivity.
Qed.

Lemma refused_pause_propagates_witness :
  run (get_with_retries dead_network (u "http://example.org") 3
         (PyFloat.decimal (-10) 1) default_timeout) (mk_world 0 [])
  = (inl (mk_exc ValueError (u "sleep length must be non-negative")),
     mk_world 1 [Get (u "http://example.org") default_timeout]).
Proof.
  rewrite (refused_pause_propagates dead_network (u "http://example.org") 3
             (PyFloat.decimal (-10) 1) default_timeout (mk_world 0 []) 0
             (PyFloat.decimal (-10) 1)
             (mk_exc ValueError (u "sleep length must be non-negative"))).
  - reflexivity.
  - reflexivity.
  - intros i Hi. eexists; split; reflexivity.
  - intros a Ha. lia.
  - vm_compute. reflexivity.
  - vm_compute. reflexivity.
Defined.

(** X4.  Whatever the network does and however the call ends, the
    client issues at most [retries] requests, each with the caller's [url]
    and [timeout]; what it adds to the trace is a row of requests, each
    followed by one pause, closed by a request: it never pauses after its
    last request, and it does nothing at all when [retries <= 0]. *)
Theorem requests_bounded :
  forall network url retries backoff_seconds timeout w,
    (retries <= 0
     /\ run (get_with_retries network url retries backoff_seconds timeout) w
        = (inr None, w))
    \/ exists pauses,
        Z.of_nat (S (List.length pauses)) <= retries
        /\ snd (run (get_with_retries network url retries backoff_seconds timeout) w)
           = mk_world (issued w + S (List.length pauses))
               (trace w ++ paused_requests url timeout pauses ++ [Get url timeout]).
Proof.
  intros network url retries backoff_seconds timeout w.
  rewrite run_get_with_retries.
  destruct (Z_le_gt_dec retries 0) as [Hle | Hgt].
  - left. rewrite range_empty by lia. split; [exact Hle | reflexivity].
  - destruct (loop_shape network url timeout retries backoff_seconds
                (Z.to_nat retries) 1 w ltac:(lia)) as [[H0 _] | (pauses & Hp & Hw)].
    + lia.
    + right. exists pauses. split; [lia | exact Hw].
Qed.

(** X5.  A response the client returns is the network's answer to the
    last request it issued, and every request before that one failed with
    a connection error or a timeout. *)
Theorem response_is_the_answer :
  forall network url retries backoff_seconds timeout w resp,
    fst (run (get_with_retries network url retries backoff_seconds timeout) w)
    = inr (Some resp) ->
    exists failed,
      Z.of_nat failed < retries
      /\ requests_fail network url timeout w failed
      /\ network (issued w + failed)%nat url timeout = inr resp
      /\ issued (snd (run (get_with_retries network url retries backoff_seconds
                             timeout) w))
         = (issued w + S failed)%nat.
Proof.
  intros network url retries backoff_seconds timeout w resp.
  rewrite run_get_with_retries.
  destruct (Z_le_gt_dec retries 0) as [Hle | Hgt].
  - rewrite range_empty by lia. discriminate.
  - intros H.
    destruct (loop_sound network url timeout retries backoff_seconds
                (Z.to_nat retries) 1 w ltac:(lia)) as [Hsome _].
    destruct (Hsome resp H) as (k & Hk & Hf & Hn & Hi).
    exists k. repeat split; try assumption. lia.
Qed.

Lemma response_is_the_answer_witness :
  exists failed,
    Z.of_nat failed < 3
    /\ requests_fail flaky_network (u "http://example.org") default_timeout
         (mk_world 0 []) failed
    /\ flaky_network (0 + failed) (u "http://example.org") default_timeout
       = inr (mk_response 503 (u "unavailable"))
    /\ issued (snd (run (get_with_retries flaky_network (u "http://example.org") 3
                           default_backoff_seconds default_timeout) (mk_world 0 [])))
       = (0 + S failed)%nat.
Proof.
  apply (response_is_the_answer flaky_network (u "http://example.org") 3
           default_backoff_seconds default_timeout (mk_world 0 [])
           (mk_response 503 (u "unavailable"))).
  vm_compute. reflexivity.
Defined.

(** X6.  [None] is returned only when the attempts are used up: all
    [retries] requests were issued and each of them failed with a
    connection error or a timeout (none was issued when [retries <= 0]). *)
Theorem none_means_exhausted :
  forall network url retries backoff_seconds timeout w,
    fst (run (get_with_retries network url retries backoff_seconds timeout) w)
    = inr None ->
    requests_fail network url timeout w (Z.to_nat retries)
    /\ issued (snd (run (get_with_retries network url retries backoff_seconds
                           timeout) w))
       = (issued w + Z.to_nat retries)%nat.
Proof.
  intros network url retries backoff_seconds timeout w.
  rewrite run_get_with_retries.
  destruct (Z_le_gt_dec retries 0) as [Hle | Hgt].
  - rewrite range_empty by lia. intros _.
    replace (Z.to_nat retries) with O by lia. split.
    + intros i Hi. lia.
    + cbn. lia.
  - intros H.
    destruct (loop_sound network url timeout retries backoff_seconds
                (Z.to_nat retries) 1 w ltac:(lia)) as [_ Hnone].
    exact (Hnone H).
Qed.

Lemma none_means_exhausted_witness :
  requests_fail dead_network (u "http://example.org") default_timeout (mk_world 0 [])
    (Z.to_nat 2)
  /\ issued (snd (run (get_with_retries dead_network (u "http://example.org") 2
                         default_backoff_seconds default_timeout) (mk_world 0 [])))
     = (0 + Z.to_nat 2)%nat.
Proof.
  apply (none_means_exhausted dead_network (u "http://example.org") 2
           default_backoff_seconds default_timeout (mk_world 0 [])).
  vm_compute. reflexivity.
Defined.

(** X7.  With [retries=1] the pause is never computed: the call does the
    same for every [backoff_seconds], a negative one or one that is not a
    number included. *)
Theorem single_attempt_ignores_backoff :
  forall network url backoff1 backoff2 timeout w,
    run (get_with_retries network url 1 backoff1 timeout) w
    = run (get_with_retries network url 1 backoff2 timeout) w.
Proof.
  intros network url backoff1 backoff2 timeout w.
  rewrite !get_with_retries_unfold, !run_bind.
  change (range 1 (1 + 1)) with [1]. rewrite !run_for_in.
  unfold attempt_body. rewrite !run_catch, !run_bind, !run_requests_get.
  destruct (network (issued w) url timeout) as [e | resp]; [| reflexivity].
  cbv beta iota. destruct (retryable e); reflexivity.
Qed.

End HttpClientMore.

(** ** The current-weather tool, in general *)

Module WeatherToolMore.
Import PyValue Agent Sentences PyStrFacts RunFacts DataModel Scenarios AgentFacts.

Lemma getitem_str_dict isprintable entries k :
  getitem_str isprintable (VDict entries) k
  = match dict_lookup entries k with
    | Some v => inr v
    | None => inl (mk_exc KeyError (repr_str isprintable k))
    end.
Proof. cbn. destruct (dict_lookup entries k); reflexivity. Qed.

Lemma raising_bind_inl {A B} (e : exc) (f : A -> raising B) :
  bind (inl e : raising A) f = inl e.
Proof. reflexivity. Qed.

(** The tool on a record that is no failure record. *)
Lemma run_weather_of_record isprintable provider city w entries :
  provider (city_norm city) = VDict entries ->
  dict_lookup entries (u "error") = None ->
  run (get_weather_for_location isprintable provider city) w
  = (match weather_sentence isprintable (VDict entries) with
     | inr s => inr s
     | inl e =>
         inr (u "Неожиданный формат ответа погоды для " ++ city_norm city ++ u ": "
                ++ exc_text e)
     end,
     w ++ [WeatherByCity (city_norm city)]).
Proof.
  intros Hp Herr. rewrite run_get_weather_for_location, Hp. cbv zeta.
  rewrite is_dict_with_lookup, Herr. reflexivity.
Qed.

(** The quotes around an ASCII key do not depend on the table of
    printable characters. *)
Lemma repr_of_keys isprintable :
  repr_str isprintable (u "name") = u "'name'"
  /\ repr_str isprintable (u "main") = u "'main'"
  /\ repr_str isprintable (u "temp") = u "'temp'"
  /\ repr_str isprintable (u "weather") = u "'weather'"
  /\ repr_str isprintable (u "description") = u "'description'".
Proof. repeat split. Qed.

(** X8.  The sentence for a proper record: the name, the temperature
    with one decimal, the description of the first condition, then
    humidity and wind speed, each only if the record has it (a [wind]
    field, if there is one, is a record), and a full stop. *)
Theorem weather_sentence_of_record :
  forall isprintable get_weather_by_city city w
         entries name main temp temp_text first more description wind,
    get_weather_by_city (city_norm city) = VDict entries ->
    dict_lookup entries (u "error") = None ->
    dict_lookup entries (u "name") = Some name ->
    dict_lookup entries (u "main") = Some (VDict main) ->
    dict_lookup main (u "temp") = Some temp ->
    format_1f temp = inr temp_text ->
    dict_lookup entries (u "weather") = Some (VList (VDict first :: more)) ->
    dict_lookup first (u "description") = Some description ->
    dict_lookup entries (u "wind") = option_map VDict wind ->
    run (get_weather_for_location isprintable get_weather_by_city city) w
    = (inr (u "Текущая погода в " ++ py_str isprintable name ++ u ": " ++ temp_text
              ++ u "°C, " ++ py_str isprintable description
              ++ optional_segment isprintable (u "влажность ")
                   (field main (u "humidity")) (u "%")
              ++ optional_segment isprintable (u "ветер ")
                   (field (match wind with Some fields => fields | None => [] end)
                      (u "speed")) (u " м/с")
              ++ u "."),
       w ++ [WeatherByCity (city_norm city)]).
Proof.
  intros isprintable provider city w entries name main temp temp_text first more
         description wind Hp Herr Hname Hmain Htemp Hfmt Hweather Hdescr Hwind.
  rewrite (run_weather_of_record _ _ _ _ _ Hp Herr).
  unfold weather_sentence. cbv zeta.
  rewrite getitem_str_dict, Hname, raising_bind_inr.
  rewrite getitem_str_dict, Hmain, raising_bind_inr.
  rewrite getitem_str_dict, Htemp, raising_bind_inr.
  rewrite getitem_str_dict, Hweather, raising_bind_inr.
  change (getitem_int (VList (VDict first :: more)) 0) with (inr (VDict first) : raising value).
  rewrite raising_bind_inr.
  rewrite getitem_str_dict, Hdescr, raising_bind_inr.
  rewrite raising_bind_inr.
  rewrite method_get_dict, raising_bind_inr.
  rewrite method_get_dict, Hwind.
  assert (match option_map VDict wind with Some v => v | None => VDict [] end
          = VDict (match wind with Some fields => fields | None => [] end)) as ->
      by (destruct wind; reflexivity).
  rewrite raising_bind_inr, method_get_dict, raising_bind_inr, Hfmt, raising_bind_inr.
  unfold optional_segment, field.
  destruct (is_none _); destruct (is_none _);
    cbn [app join ret Monad_raising Monad_either];
    rewrite <- ?app_assoc; cbn [app]; rewrite ?app_nil_r; reflexivity.
Qed.

Lemma weather_sentence_of_record_witness :
  run (get_weather_for_location all_printable (fun _ => tver_record) (u "Тверь")) []
  = (inr (u "Текущая погода в Тверь: -3.0°C, ясно."), [WeatherByCity (u "Тверь")]).
Proof.
  rewrite (weather_sentence_of_record all_printable (fun _ => tver_record) (u "Тверь") []
             [(u "name", VStr (u "Тверь"));
              (u "main", VDict [(u "temp", VInt (-3))]);
              (u "weather", VList [VDict [(u "description", VStr (u "ясно"))]])]
             (VStr (u "Тверь")) [(u "temp", VInt (-3))] (VInt (-3)) (u "-3.0")
             [(u "description", VStr (u "ясно"))] [] (VStr (u "ясно")) None).
  - vm_compute. reflexivity.
  - reflexivity.
  - reflexivity.
  - reflexivity.
  - reflexivity.
  - reflexivity.
  - vm_compute. reflexivity.
  - reflexivity.
  - reflexivity.
  - reflexivity.
Defined.

(** X9.  A record with an [error] field is a failure record whatever
    else it holds: nothing but that field is read, and its value, of any
    type, is shown as [str] shows it. *)
Theorem weather_error_takes_precedence :
  forall isprintable get_weather_by_city city w entries error,
    get_weather_by_city (city_norm city) = VDict entries ->
    dict_lookup entries (u "error") = Some error ->
    run (get_weather_for_location isprintable get_weather_by_city city) w
    = (inr (u "Не удалось получить погоду для " ++ city_norm city ++ u ": "
              ++ py_str isprintable error),
       w ++ [WeatherByCity (city_norm city)]).
Proof.
  intros isprintable provider city w entries error Hp Herr.
  rewrite run_get_weather_for_location, Hp. cbv zeta.
  rewrite is_dict_with_lookup, getitem_str_dict, Herr. reflexivity.
Qed.

Lemma weather_error_takes_precedence_witness :
  run (get_weather_for_location all_printable (fun _ => failed_record) (u "Москва")) []
  = (inr (u "Не удалось получить погоду для Москва: {'cod': 404}"),
     [WeatherByCity (u "Москва")]).
Proof.
  rewrite (weather_error_takes_precedence all_printable (fun _ => failed_record)
             (u "Москва") []
             [(u "name", VStr (u "Москва")); (u "error", VDict [(u "cod", VInt 404)])]
             (VDict [(u "cod", VInt 404)])).
  - vm_compute. reflexivity.
  - reflexivity.
  - reflexivity.
Defined.

(** X10.  A record that lacks a field the tool reads is answered with the
    unexpected-format sentence that names, in quotes, the first field
    missing in reading order. *)
Theorem weather_missing_field_named :
  forall isprintable get_weather_by_city city w entries key,
    get_weather_by_city (city_norm city) = VDict entries ->
    dict_lookup entries (u "error") = None ->
    missing_field entries = Some key ->
    run (get_weather_for_location isprintable get_weather_by_city city) w
    = (inr (u "Неожиданный формат ответа погоды для " ++ city_norm city ++ u ": "
              ++ u "'" ++ key ++ u "'"),
       w ++ [WeatherByCity (city_norm city)]).
Proof.
  intros isprintable provider city w entries key Hp Herr Hmiss.
  rewrite (run_weather_of_record _ _ _ _ _ Hp Herr).
  destruct (repr_of_keys isprintable) as (Kname & Kmain & Ktemp & Kweather & Kdescr).
  unfold weather_sentence. cbv zeta. unfold missing_field in Hmiss.
  rewrite getitem_str_dict.
  destruct (dict_lookup entries (u "name")) as [name |].
  2: { injection Hmiss as <-. rewrite raising_bind_inl, Kname. reflexivity. }
  rewrite raising_bind_inr, getitem_str_dict.
  destruct (dict_lookup entries (u "main")) as [main |].
  2: { injection Hmiss as <-. rewrite raising_bind_inl, Kmain. reflexivity. }
  destruct main as [ | | | | | | main]; try discriminate.
  rewrite raising_bind_inr, getitem_str_dict.
  destruct (dict_lookup main (u "temp")) as [temp |].
  2: { injection Hmiss as <-. rewrite raising_bind_inl, Ktemp. reflexivity. }
  rewrite raising_bind_inr, getitem_str_dict.
  destruct (dict_lookup entries (u "weather")) as [conditions |].
  2: { injection Hmiss as <-. rewrite raising_bind_inl, Kweather. reflexivity. }
  destruct conditions as [ | | | | | [| first more] | ]; try discriminate.
  destruct first as [ | | | | | | first]; try discriminate.
  rewrite raising_bind_inr.
  change (getitem_int (VList (VDict first :: more)) 0)
    with (inr (VDict first) : raising value).
  rewrite raising_bind_inr, getitem_str_dict.
  destruct (dict_lookup first (u "description")); [discriminate |].
  injection Hmiss as <-. rewrite raising_bind_inl, Kdescr. reflexivity.
Qed.

Lemma weather_missing_field_named_witness :
  run (get_weather_for_location all_printable
         (fun _ => VDict [(u "name", VStr (u "Тверь")); (u "main", VDict [])])
         (u "Тверь")) []
  = (inr (u "Неожиданный формат ответа погоды для Тверь: 'temp'"),
     [WeatherByCity (u "Тверь")]).
Proof.
  rewrite (weather_missing_field_named all_printable
             (fun _ => VDict [(u "name", VStr (u "Тверь")); (u "main", VDict [])])
             (u "Тверь") [] [(u "name", VStr (u "Тверь")); (u "main", VDict [])]
             (u "temp")).
  - vm_compute. reflexivity.
  - reflexivity.
  - reflexivity.
  - reflexivity.
Defined.

(** X11.  A record with an empty list of conditions has no first
    condition: the tool answers with the unexpected-format sentence that
    carries the text of the [IndexError]. *)
Theorem weather_without_conditions :
  forall isprintable get_weather_by_city city w entries name main temp,
    get_weather_by_city (city_norm city) = VDict entries ->
    dict_lookup entries (u "error") = None ->
    dict_lookup entries (u "name") = Some name ->
    dict_lookup entries (u "main") = Some (VDict main) ->
    dict_lookup main (u "temp") = Some temp ->
    dict_lookup entries (u "weather") = Some (VList []) ->
    run (get_weather_for_location isprintable get_weather_by_city city) w
    = (inr (u "Неожиданный формат ответа погоды для " ++ city_norm city ++ u ": "
              ++ u "list index out of range"),
       w ++ [WeatherByCity (city_norm city)]).
Proof.
  intros isprintable provider city w entries name main temp
         Hp Herr Hname Hmain Htemp Hweather.
  rewrite (run_weather_of_record _ _ _ _ _ Hp Herr).
  unfold weather_sentence. cbv zeta.
  rewrite getitem_str_dict, Hname, raising_bind_inr.
  rewrite getitem_str_dict, Hmain, raising_bind_inr.
  rewrite getitem_str_dict, Htemp, raising_bind_inr.
  rewrite getitem_str_dict, Hweather, raising_bind_inr.
  reflexivity.
Qed.

Lemma weather_without_conditions_witness :
  run (get_weather_for_location all_printable
         (fun _ => VDict [(u "name", VStr (u "Тверь"));
                          (u "main", VDict [(u "temp", VInt 1)]);
                          (u "weather", VList [])])
         (u "Тверь")) []
  = (inr (u "Неожиданный формат ответа погоды для Тверь: list index out of range"),
     [WeatherByCity (u "Тверь")]).
Proof.
  rewrite (weather_without_conditions all_printable
             (fun _ => VDict [(u "name", VStr (u "Тверь"));
                              (u "main", VDict [(u "temp", VInt 1)]);
                              (u "weather", VList [])])
             (u "Тверь") []
             [(u "name", VStr (u "Тверь")); (u "main", VDict [(u "temp", VInt 1)]);
              (u "weather", VList [])]
             (VStr (u "Тверь")) [(u "temp", VInt 1)] (VInt 1)).
  - vm_compute. reflexivity.
  - reflexivity.
  - reflexivity.
  - reflexivity.
  - reflexivity.
  - reflexivity.
  - reflexivity.
Defined.

(** X12.  A temperature given as text is not formatted: however proper
    the rest of the record, the answer is the unexpected-format sentence
    with the text of the [ValueError]. *)
Theorem weather_temperature_as_text :
  forall isprintable get_weather_by_city city w
         entries name main text first more description wind,
    get_weather_by_city (city_norm city) = VDict entries ->
    dict_lookup entries (u "error") = None ->
    dict_lookup entries (u "name") = Some name ->
    dict_lookup entries (u "main") = Some (VDict main) ->
    dict_lookup main (u "temp") = Some (VStr text) ->
    dict_lookup entries (u "weather") = Some (VList (VDict first :: more)) ->
    dict_lookup first (u "description") = Some description ->
    dict_lookup entries (u "wind") = option_map VDict wind ->
    run (get_weather_for_location isprintable get_weather_by_city city) w
    = (inr (u "Неожиданный формат ответа погоды для " ++ city_norm city ++ u ": "
              ++ u "Unknown format code 'f' for object of type 'str'"),
       w ++ [WeatherByCity (city_norm city)]).
Proof.
  intros isprintable provider city w entries name main text first more
         description wind Hp Herr Hname Hmain Htemp Hweather Hdescr Hwind.
  rewrite (run_weather_of_record _ _ _ _ _ Hp Herr).
  unfold weather_sentence. cbv zeta.
  rewrite getitem_str_dict, Hname, raising_bind_inr.
  rewrite getitem_str_dict, Hmain, raising_bind_inr.
  rewrite getitem_str_dict, Htemp, raising_bind_inr.
  rewrite getitem_str_dict, Hweather, raising_bind_inr.
  change (getitem_int (VList (VDict first :: more)) 0)
    with (inr (VDict first) : raising value).
  rewrite raising_bind_inr.
  rewrite getitem_str_dict, Hdescr, raising_bind_inr.
  rewrite raising_bind_inr.
  rewrite method_get_dict, raising_bind_inr.
  rewrite method_get_dict, Hwind.
  destruct wind; cbn [option_map]; rewrite raising_bind_inr, method_get_dict,
    raising_bind_inr; reflexivity.
Qed.

Lemma weather_temperature_as_text_witness :
  run (get_weather_for_location all_printable
         (fun _ => VDict [(u "name", VStr (u "Тверь"));
                          (u "main", VDict [(u "temp", VStr (u "-3"))]);
                          (u "weather",
                           VList [VDict [(u "description", VStr (u "ясно"))]])])
         (u "Тверь")) []
  = (inr (u "Неожиданный формат ответа погоды для Тверь: Unknown format code 'f' for object of type 'str'"),
     [WeatherByCity (u "Тверь")]).
Proof.
  rewrite (weather_temperature_as_text all_printable
             (fun _ => VDict [(u "name", VStr (u "Тверь"));
                              (u "main", VDict [(u "temp", VStr (u "-3"))]);
                              (u "weather",
                               VList [VDict [(u "description", VStr (u "ясно"))]])])
             (u "Тверь") []
             [(u "name", VStr (u "Тверь"));
              (u "main", VDict [(u "temp", VStr (u "-3"))]);
              (u "weather", VList [VDict [(u "description", VStr (u "ясно"))]])]
             (VStr (u "Тверь")) [(u "temp", VStr (u "-3"))] (u "-3")
             [(u "description", VStr (u "ясно"))] [] (VStr (u "ясно")) None).
  - vm_compute. reflexivity.
  - reflexivity.
  - reflexivity.
  - reflexivity.
  - reflexivity.
  - reflexivity.
  - reflexivity.
  - reflexivity.
  - reflexivity.
Defined.

(** X13.  An answer that is no record at all -- [None], a truth value or
    a number -- is reported as an unexpected format, with the type of the
    answer in the text. *)
Theorem weather_of_scalar_answer :
  forall isprintable get_weather_by_city city w,
    match get_weather_by_city (city_norm city) with
    | VNone | VBool _ | VInt _ | VFloat _ => True
    | _ => False
    end ->
    run (get_weather_for_location isprintable get_weather_by_city city) w
    = (inr (u "Неожиданный формат ответа погоды для " ++ city_norm city ++ u ": "
              ++ u "'" ++ type_name (get_weather_by_city (city_norm city))
              ++ u "' object is not subscriptable"),
       w ++ [WeatherByCity (city_norm city)]).
Proof.
  intros isprintable provider city w H.
  rewrite run_get_weather_for_location. cbv zeta.
  destruct (provider (city_norm city)); try contradiction; reflexivity.
Qed.

Lemma weather_of_scalar_answer_witness :
  run (get_weather_for_location all_printable (fun _ => VNone) (u "Тверь")) []
  = (inr (u "Неожиданный формат ответа погоды для Тверь: 'NoneType' object is not subscriptable"),
     [WeatherByCity (u "Тверь")]).
Proof.
  rewrite (weather_of_scalar_answer all_printable (fun _ => VNone) (u "Тверь") []).
  - vm_compute. reflexivity.
  - exact I.
Defined.

End WeatherToolMore.

(** ** The forecast tool, in general *)

Module ForecastToolMore.
Import PyValue Agent Sentences PyStrFacts RunFacts DataModel Scenarios AgentFacts.
Import WeatherToolMore.

Lemma city_norm_strip city : city_norm (strip city) = city_norm city.
Proof. unfold city_norm. rewrite strip_idempotent. reflexivity. Qed.

(** The tool on a record that is no failure record. *)
Lemma run_forecast_of_record isprintable provider city day_offset w entries :
  0 <= day_offset ->
  provider (city_norm city) = VDict entries ->
  dict_lookup entries (u "error") = None ->
  run (get_forecast_for_location isprintable provider city day_offset) w
  = (match forecast_sentence isprintable (city_norm city) day_offset (VDict entries) with
     | inr s => inr s
     | inl e =>
         inr (u "Не удалось обработать данные ежедневного прогноза для "
                ++ city_norm city ++ u ": " ++ exc_text e)
     end,
     w ++ [DailyForecastByCity (city_norm city)]).
Proof.
  intros Hoff Hp Herr. rewrite run_get_forecast_for_location by exact Hoff.
  rewrite Hp. cbv zeta. rewrite is_dict_with_lookup, Herr. reflexivity.
Qed.

(** X14.  The forecast tool never raises: whatever the provider answers
    and whatever the offset, it returns a string; it asks the provider
    once, for the normalized city, unless the offset is negative, in which
    case it does not ask. *)
Theorem forecast_tool_returns_text :
  forall isprintable get_daily_forecast_by_city city day_offset w,
  exists s,
    run (get_forecast_for_location isprintable get_daily_forecast_by_city city
           day_offset) w
    = (inr s,
       if day_offset <? 0 then w else w ++ [DailyForecastByCity (city_norm city)]).
Proof.
  intros isprintable provider city day_offset w.
  destruct (Z.ltb_spec day_offset 0) as [Hneg | Hpos].
  - unfold get_forecast_for_location.
    apply Z.ltb_lt in Hneg. rewrite Hneg. eexists. reflexivity.
  - rewrite run_get_forecast_for_location by exact Hpos. cbv zeta.
    destruct (is_dict_with (provider (city_norm city)) (u "error")) eqn:Herr.
    + destruct (getitem_of_dict_with isprintable _ _ Herr) as (x & ->).
      eexists. reflexivity.
    + destruct (forecast_sentence _ _ _ _); eexists; reflexivity.
Qed.

(** X15.  A failure record of the provider is passed on: the sentence
    names the city and shows the [error] field; the [daily] field, if
    there is one, is not read. *)
Theorem forecast_error_reported :
  forall isprintable get_daily_forecast_by_city city day_offset w entries error,
    0 <= day_offset ->
    get_daily_forecast_by_city (city_norm city) = VDict entries ->
    dict_lookup entries (u "error") = Some error ->
    run (get_forecast_for_location isprintable get_daily_forecast_by_city city
           day_offset) w
    = (inr (u "Не удалось получить ежедневный прогноз для " ++ city_norm city
              ++ u ": " ++ py_str isprintable error),
       w ++ [DailyForecastByCity (city_norm city)]).
Proof.
  intros isprintable provider city day_offset w entries error Hoff Hp Herr.
  rewrite run_get_forecast_for_location by exact Hoff.
  rewrite Hp. cbv zeta.
  rewrite is_dict_with_lookup, getitem_str_dict, Herr. reflexivity.
Qed.

Lemma forecast_error_reported_witness :
  run (get_forecast_for_location all_printable (fun _ => error_record (u "timeout"))
         (u "Омск") 1) []
  = (inr (u "Не удалось получить ежедневный прогноз для Омск: timeout"),
     [DailyForecastByCity (u "Омск")]).
Proof.
  rewrite (forecast_error_reported all_printable (fun _ => error_record (u "timeout"))
             (u "Омск") 1 [] [(u "error", VStr (u "timeout"))] (VStr (u "timeout"))).
  - vm_compute. reflexivity.
  - lia.
  - reflexivity.
  - reflexivity.
Defined.

(** X16.  A record without days -- no [daily] field, or one that is
    [None], empty, or false in any other way -- is an unexpected format:
    the fixed sentence with the city, whatever the offset. *)
Theorem forecast_without_days :
  forall isprintable get_daily_forecast_by_city city day_offset w entries,
    0 <= day_offset ->
    get_daily_forecast_by_city (city_norm city) = VDict entries ->
    dict_lookup entries (u "error") = None ->
    truthy (field entries (u "daily")) = false ->
    run (get_forecast_for_location isprintable get_daily_forecast_by_city city
           day_offset) w
    = (inr (u "Неожиданный формат ежедневного прогноза для " ++ city_norm city
              ++ u "."),
       w ++ [DailyForecastByCity (city_norm city)]).
Proof.
  intros isprintable provider city day_offset w entries Hoff Hp Herr Hdaily.
  rewrite (run_forecast_of_record _ _ _ _ _ _ Hoff Hp Herr).
  unfold forecast_sentence. rewrite method_get_dict, raising_bind_inr.
  fold (field entries (u "daily")). rewrite Hdaily. reflexivity.
Qed.

Lemma forecast_without_days_witness :
  run (get_forecast_for_location all_printable (fun _ => VDict [(u "daily", VNone)])
         (u "Омск") 3) []
  = (inr (u "Неожиданный формат ежедневного прогноза для Омск."),
     [DailyForecastByCity (u "Омск")]).
Proof.
  rewrite (forecast_without_days all_printable (fun _ => VDict [(u "daily", VNone)])
             (u "Омск") 3 [] [(u "daily", VNone)]).
  - vm_compute. reflexivity.
  - lia.
  - reflexivity.
  - reflexivity.
  - reflexivity.
Defined.

(** X17.  The forecast tool treats a city and the same city trimmed
    alike, for every offset. *)
Theorem forecast_tool_trims_city :
  forall isprintable get_daily_forecast_by_city city day_offset w,
    run (get_forecast_for_location isprintable get_daily_forecast_by_city city
           day_offset) w
    = run (get_forecast_for_location isprintable get_daily_forecast_by_city
             (strip city) day_offset) w.
Proof.
  intros. unfold get_forecast_for_location. rewrite city_norm_strip. reflexivity.
Qed.

Lemma description_shown conditions :
  conditions_ok conditions = true ->
  (if truthy (value_or conditions (VList []))
   then
     first <- getitem_int (value_or conditions (VList [])) 0 ;;
     method_get first (u "description") VNone
   else ret (VStr (u "нет описания")))
  = inr (shown_description conditions).
Proof.
  destruct conditions as [ | | | | | [| first rest] | ]; try discriminate;
    try reflexivity.
  destruct first; try discriminate. intros _.
  unfold shown_description, field. rewrite <- method_get_dict. reflexivity.
Qed.

Lemma format_1f_not_none v s : format_1f v = inr s -> is_none v = false.
Proof. destruct v; try reflexivity. discriminate. Qed.

Lemma join_flat (first : pystr) (rest : list pystr) :
  join (u ", ") (first :: rest)
  = first ++ flat_map (fun part => u ", " ++ part) rest.
Proof.
  revert first. induction rest as [| p rest IH]; intros first.
  - cbn. rewrite app_nil_r. reflexivity.
  - change (join (u ", ") (first :: p :: rest))
      with (first ++ u ", " ++ join (u ", ") (p :: rest)).
    rewrite IH. cbn [flat_map]. rewrite <- !app_assoc. reflexivity.
Qed.

Lemma add_part (absent : bool) (parts : list pystr) (part : pystr) :
  (if absent then parts else parts ++ [part])
  = parts ++ (if absent then [] else [part]).
Proof. destruct absent; rewrite ?app_nil_r; reflexivity. Qed.

Lemma flat_optional (absent : bool) (part : pystr) :
  flat_map (fun part => u ", " ++ part) (if absent then [] else [part])
  = if absent then [] else u ", " ++ part.
Proof. destruct absent; cbn [flat_map]; rewrite ?app_nil_r; reflexivity. Qed.

Lemma app_one {A} (a : A) (l : list A) : [a] ++ l = a :: l.
Proof. reflexivity. Qed.

Lemma flat_one (part : pystr) :
  flat_map (fun part => u ", " ++ part) [part] = u ", " ++ part.
Proof. cbn [flat_map]. apply app_nil_r. Qed.

Lemma flat_none {A B} (f : A -> list B) : flat_map f [] = [].
Proof. reflexivity. Qed.

Lemma returned_sentence (s : pystr) (handler : exc -> raising pystr) :
  match (ret s : raising pystr) with
  | inr s' => inr s'
  | inl e => handler e
  end = (inr s : raising pystr).
Proof. reflexivity. Qed.

Lemma both_present : negb false && negb false = true.
Proof. reflexivity. Qed.

Lemma if_true {A} (a b : A) : (if true then a else b) = a.
Proof. reflexivity. Qed.

Lemma if_false {A} (a b : A) : (if false then a else b) = b.
Proof. reflexivity. Qed.

Lemma negb_false' : negb false = true.
Proof. reflexivity. Qed.

Lemma negb_true' : negb true = false.
Proof. reflexivity. Qed.

Section WellFormedDay.
Variable isprintable : N -> bool.
Variable get_daily_forecast_by_city : pystr -> value.
Variables (city : pystr) (day_offset : Z) (w : tool_world).
Variables (entries : list (pystr * value)) (items : list value).
Variables (fields temps : list (pystr * value)).

Hypothesis answered : get_daily_forecast_by_city (city_norm city) = VDict entries.
Hypothesis no_error : dict_lookup entries (u "error") = None.
Hypothesis has_days : dict_lookup entries (u "daily") = Some (VList items).
Hypothesis not_negative : 0 <= day_offset.
Hypothesis the_day : nth_error items (Z.to_nat day_offset) = Some (VDict fields).
Hypothesis the_temps : value_or (field fields (u "temp")) (VDict []) = VDict temps.
Hypothesis the_conditions : conditions_ok (field fields (u "weather")) = true.

(** The sentence up to the description, and from the humidity on. *)
Let opening : pystr :=
  u "Прогноз для " ++ city_norm city ++ u " на " ++ day_label day_offset ++ u ": "
    ++ py_str isprintable (shown_description (field fields (u "weather"))).
Let closing : pystr :=
  optional_segment isprintable (u "влажность ") (field fields (u "humidity")) (u "%")
    ++ optional_segment isprintable (u "ветер ") (field fields (u "wind_speed"))
         (u " м/с")
    ++ u " (по данным OpenWeatherMap One Call).".

(** The [try] block up to the choice of the temperature. *)
Lemma day_sentence_unfolded :
  forecast_sentence isprintable (city_norm city) day_offset (VDict entries)
  = (parts <-
       (if negb (is_none (field temps (u "min"))) && negb (is_none (field temps (u "max")))
        then
          lo <- format_1f (field temps (u "min")) ;;
          hi <- format_1f (field temps (u "max")) ;;
          ret ([opening] ++ [u "температура от " ++ lo ++ u "°C до " ++ hi ++ u "°C"])
        else
          if negb (is_none (field temps (u "day")))
          then
            around <- format_1f (field temps (u "day")) ;;
            ret ([opening] ++ [u "температура около " ++ around ++ u "°C"])
          else ret [opening]) ;;
     ret (join (u ", ")
            (let parts :=
               if is_none (field fields (u "humidity")) then parts
               else parts ++ [u "влажность "
                                ++ py_str isprintable (field fields (u "humidity"))
                                ++ u "%"] in
             if is_none (field fields (u "wind_speed")) then parts
             else parts ++ [u "ветер "
                              ++ py_str isprintable (field fields (u "wind_speed"))
                              ++ u " м/с"])
            ++ u " (по данным OpenWeatherMap One Call).")).
Proof.
  destruct (getitem_int_in_range _ _ _ not_negative the_day) as (Hget & Hlen & Htruthy).
  unfold forecast_sentence. rewrite method_get_dict, has_days.
  rewrite raising_bind_inr, Htruthy. cbn [negb].
  cbn [py_len]. rewrite raising_bind_ret, Hlen, Hget, raising_bind_inr.
  rewrite method_get_dict, raising_bind_inr.
  fold (field fields (u "temp")). rewrite the_temps.
  do 3 rewrite method_get_dict, raising_bind_inr.
  rewrite method_get_dict, raising_bind_inr.
  fold (field fields (u "weather")).
  rewrite (description_shown _ the_conditions), raising_bind_inr.
  do 2 rewrite method_get_dict, raising_bind_inr.
  reflexivity.
Qed.

(** The sentence once its parts are known. *)
Lemma day_sentence_joined (middle : list pystr) :
  join (u ", ")
    (let parts :=
       if is_none (field fields (u "humidity")) then opening :: middle
       else (opening :: middle)
              ++ [u "влажность " ++ py_str isprintable (field fields (u "humidity"))
                    ++ u "%"] in
     if is_none (field fields (u "wind_speed")) then parts
     else parts ++ [u "ветер " ++ py_str isprintable (field fields (u "wind_speed"))
                      ++ u " м/с"])
    ++ u " (по данным OpenWeatherMap One Call)."
  = opening ++ flat_map (fun part => u ", " ++ part) middle ++ closing.
Proof.
  cbv zeta. rewrite !add_part, <- app_assoc, <- app_comm_cons.
  rewrite join_flat, !flat_map_app, !flat_optional.
  unfold closing, optional_segment. rewrite <- !app_assoc. reflexivity.
Qed.

Lemma one_end_missing :
  is_none (field temps (u "min")) || is_none (field temps (u "max")) = true ->
  negb (is_none (field temps (u "min"))) && negb (is_none (field temps (u "max")))
  = false.
Proof.
  intros H. destruct (is_none (field temps (u "min"))); [reflexivity |].
  destruct (is_none (field temps (u "max"))); [reflexivity | discriminate H].
Qed.

(** X18.  When a day has both a minimum and a maximum temperature, the
    forecast gives the range, each end with one decimal, and leaves the
    day temperature out, whatever it is. *)
Theorem forecast_with_range :
  forall lo hi,
    format_1f (field temps (u "min")) = inr lo ->
    format_1f (field temps (u "max")) = inr hi ->
    run (get_forecast_for_location isprintable get_daily_forecast_by_city city
           day_offset) w
    = (inr (opening ++ u ", " ++ u "температура от " ++ lo ++ u "°C до " ++ hi ++ u "°C"
              ++ closing),
       w ++ [DailyForecastByCity (city_norm city)]).
Proof.
  intros lo hi Hlo Hhi.
  rewrite (run_forecast_of_record _ _ _ _ _ _ not_negative answered no_error).
  rewrite day_sentence_unfolded.
  rewrite (format_1f_not_none _ _ Hlo), (format_1f_not_none _ _ Hhi).
  rewrite both_present. cbv iota.
  rewrite Hlo, raising_bind_inr, Hhi, raising_bind_inr.
  rewrite raising_bind_ret, app_one, day_sentence_joined, flat_one.
  rewrite returned_sentence, <- !app_assoc. reflexivity.
Qed.

(** X19.  When the minimum or the maximum is missing and the day
    temperature is there, the forecast gives the day temperature as an
    approximate figure. *)
Theorem forecast_with_day_temperature :
  forall around,
    is_none (field temps (u "min")) || is_none (field temps (u "max")) = true ->
    format_1f (field temps (u "day")) = inr around ->
    run (get_forecast_for_location isprintable get_daily_forecast_by_city city
           day_offset) w
    = (inr (opening ++ u ", " ++ u "температура около " ++ around ++ u "°C" ++ closing),
       w ++ [DailyForecastByCity (city_norm city)]).
Proof.
  intros around Hmissing Hday.
  rewrite (run_forecast_of_record _ _ _ _ _ _ not_negative answered no_error).
  rewrite day_sentence_unfolded, (one_end_missing Hmissing). cbv iota.
  rewrite (format_1f_not_none _ _ Hday), negb_false'. cbv iota.
  rewrite Hday, raising_bind_inr, raising_bind_ret, app_one.
  rewrite day_sentence_joined, flat_one, returned_sentence, <- !app_assoc.
  reflexivity.
Qed.

(** X20.  When the minimum or the maximum is missing and the day
    temperature too, the forecast has no temperature at all: the
    description is followed by humidity, wind and the closing note. *)
Theorem forecast_without_temperature :
  is_none (field temps (u "min")) || is_none (field temps (u "max")) = true ->
  is_none (field temps (u "day")) = true ->
  run (get_forecast_for_location isprintable get_daily_forecast_by_city city
         day_offset) w
  = (inr (opening ++ closing), w ++ [DailyForecastByCity (city_norm city)]).
Proof.
  intros Hmissing Hday.
  rewrite (run_forecast_of_record _ _ _ _ _ _ not_negative answered no_error).
  rewrite day_sentence_unfolded, (one_end_missing Hmissing). cbv iota.
  rewrite Hday, negb_true'. cbv iota. rewrite raising_bind_ret.
  rewrite (day_sentence_joined []), returned_sentence.
  rewrite flat_none, app_nil_l.
  reflexivity.
Qed.
End WellFormedDay.

Lemma forecast_with_range_witness :
  run (get_forecast_for_location all_printable (fun _ => forecast_record 3)
         (u "Омск") 1) []
  = (inr (u "Прогноз для Омск на завтра: снег, температура от -3.2°C до 4.0°C, влажность 91%, ветер 4.75 м/с (по данным OpenWeatherMap One Call)."),
     [DailyForecastByCity (u "Омск")]).
Proof.
  rewrite (forecast_with_range all_printable (fun _ => forecast_record 3)
             (u "Омск") 1 []
             [(u "daily", VList (repeat snowy_day 3))]
             (repeat snowy_day 3)
             [(u "temp", VDict [(u "min", VFloat (PyFloat.decimal (-32) 1));
                                (u "max", VInt 4);
                                (u "day", VFloat (PyFloat.decimal 15 1))]);
              (u "weather", VList [VDict [(u "description", VStr (u "снег"))]]);
              (u "humidity", VInt 91);
              (u "wind_speed", VFloat (PyFloat.decimal 475 2))]
             [(u "min", VFloat (PyFloat.decimal (-32) 1));
              (u "max", VInt 4);
              (u "day", VFloat (PyFloat.decimal 15 1))]
             eq_refl eq_refl eq_refl ltac:(lia) eq_refl eq_refl eq_refl
             (u "-3.2") (u "4.0")).
  - vm_compute. reflexivity.
  - vm_compute. reflexivity.
  - vm_compute. reflexivity.
Defined.

Lemma forecast_with_day_temperature_witness :
  run (get_forecast_for_location all_printable
         (fun _ => VDict [(u "daily", VList [mild_day])]) (u "Омск") 0) []
  = (inr (u "Прогноз для Омск на сегодня: дождь, температура около 12.5°C (по данным OpenWeatherMap One Call)."),
     [DailyForecastByCity (u "Омск")]).
Proof.
  rewrite (forecast_with_day_temperature all_printable
             (fun _ => VDict [(u "daily", VList [mild_day])]) (u "Омск") 0 []
             [(u "daily", VList [mild_day])]
             [mild_day]
             [(u "temp", VDict [(u "day", VFloat (PyFloat.decimal 125 1));
                                (u "min", VNone)]);
              (u "weather", VList [VDict [(u "description", VStr (u "дождь"))]])]
             [(u "day", VFloat (PyFloat.decimal 125 1)); (u "min", VNone)]
             eq_refl eq_refl eq_refl ltac:(lia) eq_refl eq_refl eq_refl
             (u "12.5")).
  - vm_compute. reflexivity.
  - vm_compute. reflexivity.
  - vm_compute. reflexivity.
Defined.

Lemma forecast_without_temperature_witness :
  run (get_forecast_for_location all_printable
         (fun _ => VDict [(u "daily", VList [bare_day])]) (u "Омск") 0) []
  = (inr (u "Прогноз для Омск на сегодня: нет описания, влажность 40% (по данным OpenWeatherMap One Call)."),
     [DailyForecastByCity (u "Омск")]).
Proof.
  rewrite (forecast_without_temperature all_printable
             (fun _ => VDict [(u "daily", VList [bare_day])]) (u "Омск") 0 []
             [(u "daily", VList [bare_day])]
             [bare_day]
             [(u "humidity", VInt 40)]
             []
             eq_refl eq_refl eq_refl ltac:(lia) eq_refl eq_refl eq_refl).
  - vm_compute. reflexivity.
  - vm_compute. reflexivity.
  - vm_compute. reflexivity.
Defined.

End ForecastToolMore.

(** ** The city a provider is asked about, and the clock *)

Module ContextAndClockMore.
Import PyValue Agent PyStrFacts RunFacts Scenarios AgentFacts.

Lemma str_or_nonempty (a b : pystr) : a <> [] -> str_or a b = a.
Proof. destruct a; [congruence | reflexivity]. Qed.

Lemma placeholder_trimmed : strip (u "неизвестный город") = u "неизвестный город".
Proof. vm_compute. reflexivity. Qed.

Lemma placeholder_not_empty : u "неизвестный город" <> [].
Proof. vm_compute. discriminate. Qed.

Lemma city_norm_not_empty city : city_norm city <> [].
Proof.
  unfold city_norm. destruct (strip city) as [| c r] eqn:Hs.
  - exact placeholder_not_empty.
  - discriminate.
Qed.

Lemma city_norm_trimmed city : strip (city_norm city) = city_norm city.
Proof.
  unfold city_norm. destruct (strip city) as [| c r] eqn:Hs.
  - exact placeholder_trimmed.
  - change (str_or (c :: r) (u "неизвестный город")) with (c :: r).
    rewrite <- Hs. apply strip_idempotent.
Qed.

Lemma city_norm_of_trimmed city : strip city = city -> city <> [] -> city_norm city = city.
Proof. intros Hs Hne. unfold city_norm. rewrite Hs. apply str_or_nonempty, Hne. Qed.

Lemma weather_trace isprintable provider city w :
  snd (run (get_weather_for_location isprintable provider city) w)
  = w ++ [WeatherByCity (city_norm city)].
Proof. rewrite run_get_weather_for_location. reflexivity. Qed.

Lemma forecast_trace isprintable provider city day_offset w :
  snd (run (get_forecast_for_location isprintable provider city day_offset) w)
  = if day_offset <? 0 then w else w ++ [DailyForecastByCity (city_norm city)].
Proof.
  destruct (Z.ltb_spec day_offset 0) as [Hneg | Hpos].
  - unfold get_forecast_for_location.
    apply Z.ltb_lt in Hneg. rewrite Hneg. reflexivity.
  - rewrite run_get_forecast_for_location by exact Hpos. reflexivity.
Qed.

(** X21.  No provider is ever asked about an empty or untrimmed city:
    whatever city a tool is given, the one it asks about is not empty and
    has no white space at either end; both tools ask about the same one. *)
Theorem provider_city_never_blank :
  forall isprintable get_weather_by_city get_daily_forecast_by_city city day_offset w,
  exists asked,
    asked <> [] /\ strip asked = asked
    /\ snd (run (get_weather_for_location isprintable get_weather_by_city city) w)
       = w ++ [WeatherByCity asked]
    /\ snd (run (get_forecast_for_location isprintable get_daily_forecast_by_city city
                   day_offset) w)
       = if day_offset <? 0 then w else w ++ [DailyForecastByCity asked].
Proof.
  intros. exists (city_norm city).
  split; [apply city_norm_not_empty |].
  split; [apply city_norm_trimmed |].
  split; [apply weather_trace | apply forecast_trace].
Qed.

(** X22.  The city of the context goes to the provider unchanged: when
    the context's default city is not empty and has no white space around
    it, the current-weather tool called with what [get_user_location]
    returns asks the provider about exactly that city, and
    [get_user_location] itself asks nothing. *)
Theorem default_city_is_queried :
  forall isprintable get_weather_by_city runtime w,
    strip (default_city (context runtime)) = default_city (context runtime) ->
    default_city (context runtime) <> [] ->
    run (get_user_location runtime) w = (inr (default_city (context runtime)), w)
    /\ snd (run (city <- get_user_location runtime ;;
                 get_weather_for_location isprintable get_weather_by_city city) w)
       = w ++ [WeatherByCity (default_city (context runtime))].
Proof.
  intros isprintable provider runtime w Hs Hne. split; [reflexivity |].
  unfold get_user_location. cbv zeta. rewrite run_bind, run_ret.
  rewrite weather_trace, (city_norm_of_trimmed _ Hs Hne). reflexivity.
Qed.

Lemma default_city_is_queried_witness :
  run (get_user_location (mk_runtime (new_context (u "user-1")))) []
  = (inr (u "Иркутск,ru"), [])
  /\ snd (run (city <- get_user_location (mk_runtime (new_context (u "user-1"))) ;;
               get_weather_for_location all_printable (fun _ => moscow_record) city) [])
     = [] ++ [WeatherByCity (default_city (context (mk_runtime (new_context (u "user-1")))))].
Proof.
  apply (default_city_is_queried all_printable (fun _ => moscow_record)
           (mk_runtime (new_context (u "user-1"))) []).
  - vm_compute. reflexivity.
  - vm_compute. discriminate.
Defined.

(** A property checked on every number of a range holds on the range. *)
Lemma checked_on_range (p : Z -> bool) (lo : Z) (k : nat) :
  forallb p (map (fun i => lo + Z.of_nat i) (seq 0 k)) = true ->
  forall n, lo <= n < lo + Z.of_nat k -> p n = true.
Proof.
  intros H n Hn. rewrite forallb_forall in H. apply H.
  apply in_map_iff. exists (Z.to_nat (n - lo)). split; [lia |].
  apply in_seq. lia.
Qed.

Lemma two_width n : 0 <= n <= 99 -> List.length (two n) = 2%nat.
Proof.
  intros Hn. apply Nat.eqb_eq.
  apply (checked_on_range (fun n => (List.length (two n) =? 2)%nat) 0 (Z.to_nat 100)).
  - vm_compute. reflexivity.
  - lia.
Qed.

Lemma year_width y : 1000 <= y <= 9999 -> List.length (str_int y) = 4%nat.
Proof.
  intros Hy. apply Nat.eqb_eq.
  apply (checked_on_range (fun y => (List.length (str_int y) =? 4)%nat) 1000 (Z.to_nat 9000)).
  - vm_compute. reflexivity.
  - lia.
Qed.

Lemma zfill_full (width : nat) (s : pystr) : List.length s = width -> zfill width s = s.
Proof. intros H. unfold zfill. rewrite H, Nat.sub_diag. reflexivity. Qed.

Lemma run_get_current_time host_clock runtime timezone w :
  run (get_current_time host_clock runtime timezone) w
  = (inr (u "Локальное системное время: " ++ strftime_dmy_hms host_clock
            ++ u " (ISO: " ++ isoformat (replace_microsecond host_clock 0) ++ u ")"),
     w ++ [Now]).
Proof. reflexivity. Qed.

Lemma no_fraction (s : pystr) :
  s ++ (if 0 =? 0 then [] else u "." ++ zfill 6 (str_int 0)) = s.
Proof. change (0 =? 0) with true. cbv iota. apply app_nil_r. Qed.

(** X23.  For a clock reading of the years 1000 to 9999 the answer of the
    current-time tool has a fixed layout: day.month.year and the time of
    day, then the ISO form year-month-dayThour:minute:second of the same
    digits, four for the year and two for every other field; the
    microseconds of the clock never show. *)
Theorem current_time_fixed_width :
  forall host_clock runtime timezone w,
    1000 <= year host_clock <= 9999 ->
    1 <= month host_clock <= 12 ->
    1 <= day host_clock <= 31 ->
    0 <= hour host_clock <= 23 ->
    0 <= minute host_clock <= 59 ->
    0 <= second host_clock <= 59 ->
    exists Y M D h m s,
      (List.length Y = 4 /\ List.length M = 2 /\ List.length D = 2
       /\ List.length h = 2 /\ List.length m = 2 /\ List.length s = 2)%nat
      /\ run (get_current_time host_clock runtime timezone) w
         = (inr (u "Локальное системное время: "
                   ++ (D ++ u "." ++ M ++ u "." ++ Y ++ u " " ++ h ++ u ":" ++ m
                         ++ u ":" ++ s)
                   ++ u " (ISO: "
                   ++ (Y ++ u "-" ++ M ++ u "-" ++ D ++ u "T" ++ h ++ u ":" ++ m
                         ++ u ":" ++ s)
                   ++ u ")"),
            w ++ [Now]).
Proof.
  intros [Y M D h m s us] runtime timezone w HY HM HD Hh Hm Hs.
  cbn [year month day hour minute second] in *.
  exists (str_int Y), (two M), (two D), (two h), (two m), (two s).
  split.
  - repeat split; try (apply two_width; lia). apply year_width, HY.
  - rewrite run_get_current_time.
    unfold isoformat, strftime_dmy_hms, replace_microsecond.
    cbn [year month day hour minute second microsecond].
    rewrite (zfill_full 4 _ (year_width _ HY)).
    rewrite no_fraction. reflexivity.
Qed.

Lemma current_time_fixed_width_witness :
  exists Y M D h m s,
    (List.length Y = 4 /\ List.length M = 2 /\ List.length D = 2
     /\ List.length h = 2 /\ List.length m = 2 /\ List.length s = 2)%nat
    /\ run (get_current_time (mk_datetime 2026 11 3 9 5 7 123456)
              (mk_runtime (new_context (u "user-1"))) None) []
       = (inr (u "Локальное системное время: "
                 ++ (D ++ u "." ++ M ++ u "." ++ Y ++ u " " ++ h ++ u ":" ++ m
                       ++ u ":" ++ s)
                 ++ u " (ISO: "
                 ++ (Y ++ u "-" ++ M ++ u "-" ++ D ++ u "T" ++ h ++ u ":" ++ m
                       ++ u ":" ++ s)
                 ++ u ")"),
          [] ++ [Now]).
Proof.
  apply (current_time_fixed_width (mk_datetime 2026 11 3 9 5 7 123456)
           (mk_runtime (new_context (u "user-1"))) None []);
    cbn [year month day hour minute second]; lia.
Defined.

End ContextAndClockMore.
